(** * AURA Mind backend (server.js): provider orchestration, work timer
      and command routing

    A shallow embedding of the decision logic of [server.js]:
    - [getAIResponse] / [getFallbackResponse]: the auto-switching relay
      to the hosted chat providers and its local keyword responder;
    - [startWorkTimer] / [checkTimerStatus] / [handleTimerComplete]: the
      per-user 40-minute work timer kept in the [activeTimers] map;
    - [handleSpecialCommands] and the [/api/aura/process] route;
    - the voice, document-scanning and status routes;
    - the script of the page that talks to these routes: its countdown,
      its modes and what it does with a reply.

    Modelling conventions.
    - JavaScript strings are modelled as [string] over 8-bit characters
      and are meant for ASCII text: [toLowerCase], [toUpperCase] and
      [trim] act on the ASCII letters and ASCII white space.
    - JavaScript numbers that occur here are integral (millisecond
      instants, counters) and are modelled in [Z].
    - Object literals returned to the client are ordered field lists
      ([Value]); the timer record, whose shape is fixed, is a [Record].
    - Everything read from the outside world is an explicit argument: the
      outcome of each outbound provider call ([Network]), the credential
      table ([API_KEYS]), the clock readings ([Date.now()]), the rendered
      local time and the random draw of [activateSafeMode]. *)

From Stdlib Require Import ZArith String Ascii List Bool Lia DecimalString.
From stdpp Require Import gmap strings list fin_maps.

Open Scope string_scope.
Open Scope list_scope.
Open Scope Z_scope.

(** ** JavaScript string primitives (ASCII) *)

Module Js.

Definition lowerChar (c : ascii) : ascii :=
  let n := N_of_ascii c in
  if ((65 <=? n) && (n <=? 90))%N then ascii_of_N (n + 32) else c.

Definition upperChar (c : ascii) : ascii :=
  let n := N_of_ascii c in
  if ((97 <=? n) && (n <=? 122))%N then ascii_of_N (n - 32) else c.

Fixpoint mapChars (f : ascii -> ascii) (s : string) : string :=
  match s with
  | EmptyString => EmptyString
  | String c rest => String (f c) (mapChars f rest)
  end.

Definition toLowerCase (s : string) : string := mapChars lowerChar s.
Definition toUpperCase (s : string) : string := mapChars upperChar s.

(** [s.includes(k)]: [k] occurs in [s] as a contiguous substring. *)
Fixpoint includes (s k : string) : bool :=
  String.prefix k s ||
  match s with
  | EmptyString => false
  | String _ rest => includes rest k
  end.

Definition isSpace (c : ascii) : bool :=
  let n := N_of_ascii c in
  ((n =? 32) || ((9 <=? n) && (n <=? 13)))%N.

Fixpoint trimStart (s : string) : string :=
  match s with
  | EmptyString => EmptyString
  | String c rest => if isSpace c then trimStart rest else s
  end.

Fixpoint trimEnd (s : string) : string :=
  match s with
  | EmptyString => EmptyString
  | String c rest =>
      match trimEnd rest with
      | EmptyString => if isSpace c then EmptyString else String c EmptyString
      | kept => String c kept
      end
  end.

Definition trim (s : string) : string := trimEnd (trimStart s).

Fixpoint dropChars (n : nat) (s : string) : string :=
  match n, s with
  | O, _ => s
  | S n', String _ rest => dropChars n' rest
  | S _, EmptyString => EmptyString
  end.

(** [s.replace(pattern, replacement)] with a string pattern: only the
    first occurrence is replaced. The only replacement used by the
    server is the empty string, so the dollar patterns of the
    replacement text play no role. *)
Fixpoint replace (s pattern replacement : string) : string :=
  if String.prefix pattern s
  then replacement +:+ dropChars (String.length pattern) s
  else match s with
       | EmptyString => EmptyString
       | String c rest => String c (replace rest pattern replacement)
       end.

(** Truthiness of a value that is [null]/[undefined] ([None]) or a
    string: only a non-empty string is truthy. *)
Definition truthy (v : option string) : bool :=
  match v with
  | Some (String _ _) => true
  | _ => false
  end.

(** [a || b] on such values. *)
Definition orElse (a b : option string) : option string :=
  if truthy a then a else b.

(** [n.toString()] for an integral number. *)
Definition toString (n : Z) : string := NilZero.string_of_int (Z.to_int n).

(** [s.padStart(2, '0')]. *)
Definition padStart2 (s : string) : string :=
  match s with
  | EmptyString => "00"
  | String c EmptyString => String "0" (String c EmptyString)
  | _ => s
  end.

(** Values of the object literals sent back to the client. *)
#[warnings="-register-all"]
Inductive Value : Type :=
| Null
| Str (s : string)
| Num (n : Z)
| Boolean (b : bool)
| Arr (items : list Value)
| Obj (fields : list (string * Value)).

Fixpoint getField (name : string) (fields : list (string * Value)) : option Value :=
  match fields with
  | [] => None
  | (k, v) :: rest => if String.eqb k name then Some v else getField name rest
  end.

(** [o.name] on a value; [undefined] is [None]. *)
Definition get (name : string) (o : Value) : option Value :=
  match o with
  | Obj fields => getField name fields
  | _ => None
  end.

Fixpoint setField (name : string) (v : Value) (fields : list (string * Value))
  : list (string * Value) :=
  match fields with
  | [] => [(name, v)]
  | (k, old) :: rest =>
      if String.eqb k name then (k, v) :: rest else (k, old) :: setField name v rest
  end.

(** [o.name = v] on an object. *)
Definition set (name : string) (v : Value) (o : Value) : Value :=
  match o with
  | Obj fields => Obj (setField name v fields)
  | other => other
  end.

(** How a function call ends: with a value, or with an exception that
    reaches the caller. *)
Inductive Completion (A : Type) : Type :=
| Returned (a : A)
| Thrown (error : string).
Arguments Returned {A} a.
Arguments Thrown {A} error.

End Js.
Import Js.

(** ** The response orchestrator *)

Module Orchestrator.

(** The mutable part of the [AI_APIS] configuration object (the endpoint
    URLs are only used to address the outbound requests). *)
Record AiApis : Type := {
  primary : string;
  backup : list string;
  currentActive : string
}.

Definition AI_APIS : AiApis :=
  {| primary := "groq";
     backup := ["openai"; "huggingface"; "gemini"];
     currentActive := "groq" |}.

(** The providers the server is configured for: the keys of
    [AI_APIS.endpoints], which are also the keys of [apiMethods]. *)
Definition providers : list string := ["groq"; "openai"; "gemini"; "huggingface"].

(** [process.env.NAME || fallback]. *)
Definition envOr (env : gmap string string) (name fallback : string) : string :=
  match env !! name with
  | Some (String c rest) => String c rest
  | _ => fallback
  end.

(** The [API_KEYS] object, built once from the process environment. *)
Definition API_KEYS (env : gmap string string) : gmap string string :=
  <["GROQ_API_KEY" := envOr env "GROQ_API_KEY" EmptyString]>
  (<["OPENAI_API_KEY" := envOr env "OPENAI_API_KEY" EmptyString]>
  (<["GEMINI_API_KEY" := envOr env "GEMINI_API_KEY" EmptyString]>
  (<["HUGGINGFACE_TOKEN" := envOr env "HUGGINGFACE_TOKEN" "YOUR_HF_KEY_HERE"]> ∅))).

(** The credential test of [getAIResponse]:
    [API_KEYS[`${NAME}_API_KEY`] || API_KEYS[`${NAME}_TOKEN`]]. *)
Definition hasCredential (keys : gmap string string) (api : string) : bool :=
  truthy (orElse (keys !! (toUpperCase api +:+ "_API_KEY"))
                 (keys !! (toUpperCase api +:+ "_TOKEN"))).

(** What one outbound request to a provider comes back with. *)
Inductive Outcome : Type :=
| TransportError            (* [fetch] rejects *)
| HttpNotOk                 (* [response.ok] is false *)
| Malformed                 (* the body is not JSON or lacks the text field *)
| Text (content : string).  (* the text field of a well-formed payload *)

(** The outcome of the [k]-th outbound request of one [getAIResponse]
    invocation, when it is addressed to provider [api]. *)
Definition Network : Type := nat -> string -> Outcome.

Definition callGroqAPI (o : Outcome) (message : string) : option string :=
  match o with
  | Text content => Some (trim content)
  | _ => None
  end.

Definition callOpenAIAPI (o : Outcome) (message : string) : option string :=
  match o with
  | Text content => Some (trim content)
  | _ => None
  end.

Definition callGeminiAPI (o : Outcome) (message : string) : option string :=
  match o with
  | Text content => Some (trim content)
  | _ => None
  end.

Definition newline : string := String (ascii_of_N 10) EmptyString.

Definition callHuggingFaceAPI (o : Outcome) (message : string) : option string :=
  match o with
  | Text generated_text =>
      Some (trim (replace generated_text
                          ("Human: " +:+ message +:+ newline +:+ "AURA:") EmptyString))
  | _ => None
  end.

Definition ApiMethod : Type := Outcome -> string -> option string.

(** [apiMethods[name]]. *)
Definition apiMethods (name : string) : option ApiMethod :=
  if String.eqb name "groq" then Some callGroqAPI
  else if String.eqb name "openai" then Some callOpenAIAPI
  else if String.eqb name "gemini" then Some callGeminiAPI
  else if String.eqb name "huggingface" then Some callHuggingFaceAPI
  else None.

(** The keyword table of [getFallbackResponse], in insertion order (the
    order in which [for ... in] visits its keys). [timeString] is
    [new Date().toLocaleTimeString()]. *)
Definition fallbacks (timeString : string) : list (string * string) :=
  [ ("hello", "Hello! I am AURA, your AI study assistant. How can I help you today?");
    ("hi", "Hi there! Ready to boost your productivity and learning?");
    ("machine learning", "Machine learning is a branch of AI that enables computers to learn and make decisions from data without explicit programming.");
    ("programming", "Programming is the art of creating instructions for computers using languages like Python, JavaScript, or Java.");
    ("study", "Effective studying involves active recall, spaced repetition, and taking regular breaks. What subject are you working on?");
    ("stress", "I can help you manage stress through the 40-minute work sessions and safe mode activation.");
    ("weather", "I cannot check weather, but I hope you have a productive day ahead!");
    ("time", "It's currently around " +:+ timeString +:+ ".");
    ("help", "I can assist with studies, manage your work sessions, activate AI Clone mode, and provide stress management support.") ].

Definition genericReply : string :=
  "I understand what you're asking. How can I help you with your studies or productivity today?".

(** The [for (let keyword in fallbacks)] loop. *)
Fixpoint scanFallbacks (lowerMessage : string) (table : list (string * string))
  : option string :=
  match table with
  | [] => None
  | (keyword, reply) :: rest =>
      if includes lowerMessage keyword then Some reply
      else scanFallbacks lowerMessage rest
  end.

Definition getFallbackResponse (timeString message : string) : string :=
  let lowerMessage := toLowerCase message in
  match scanFallbacks lowerMessage (fallbacks timeString) with
  | Some reply => reply
  | None => genericReply
  end.

(** One run of [getAIResponse]: how it completes, the configuration
    object afterwards, and the outbound calls it made, in order, each
    with what the call function returned. The log of calls is
    bookkeeping of the model; the server keeps no such list. *)
Inductive Role : Type :=
| Preferred   (* the call to [AI_APIS.currentActive] *)
| Fallback.   (* a call made by the loop over [AI_APIS.backup] *)

Record Call : Type := {
  role : Role;
  api : string;
  response : option string
}.

Definition succeeded (c : Call) : bool := truthy (response c).

Record Run : Type := {
  value : Completion string;
  apis : AiApis;
  calls : list Call
}.

Definition logCall (c : Call) (r : Run) : Run :=
  {| value := value r; apis := apis r; calls := c :: calls r |}.

Definition switchTo (st : AiApis) (api : string) : AiApis :=
  {| primary := primary st; backup := backup st; currentActive := api |}.

Section GetAIResponse.

Variable keys : gmap string string.
Variable net : Network.
Variable timeString : string.
Variable message : string.

(** The [for (let backupAPI of AI_APIS.backup)] loop, entered after [k]
    outbound calls, followed by the final fallback. *)
Fixpoint tryBackups (st : AiApis) (k : nat) (rest : list string) : Run :=
  match rest with
  | [] =>
      {| value := Returned (getFallbackResponse timeString message);
         apis := st; calls := [] |}
  | backupAPI :: rest' =>
      if hasCredential keys backupAPI then
        match apiMethods backupAPI with
        | None =>
            {| value := Thrown "TypeError: apiMethods[backupAPI] is not a function";
               apis := st; calls := [] |}
        | Some method =>
            let response := method (net k backupAPI) message in
            logCall {| role := Fallback; api := backupAPI; response := response |}
              (match response with
               | Some (String c text) =>
                   {| value := Returned (String c text);
                      apis := switchTo st backupAPI; calls := [] |}
               | _ => tryBackups st (S k) rest'
               end)
        end
      else tryBackups st k rest'
  end.

Definition getAIResponse (st : AiApis) : Run :=
  if hasCredential keys (currentActive st) then
    match apiMethods (currentActive st) with
    | None =>
        {| value := Thrown "TypeError: apiMethods[AI_APIS.currentActive] is not a function";
           apis := st; calls := [] |}
    | Some method =>
        let response := method (net 0%nat (currentActive st)) message in
        logCall {| role := Preferred; api := currentActive st; response := response |}
          (match response with
           | Some (String c text) =>
               {| value := Returned (String c text); apis := st; calls := [] |}
           | _ => tryBackups st 1%nat (backup st)
           end)
    end
  else tryBackups st 0%nat (backup st).

End GetAIResponse.

(** The configurations the process can be in: the initial object, and
    whatever a call of [getAIResponse] leaves behind. *)
Inductive reachable : AiApis -> Prop :=
| reachable_init : reachable AI_APIS
| reachable_call keys net timeString message st :
    reachable st ->
    reachable (apis (getAIResponse keys net timeString message st)).

End Orchestrator.
Import Orchestrator.

(** ** The work-session timer *)

Module Timer.

(** The [timerData] object stored in the [activeTimers] map. *)
Record TimerData : Type := {
  startTime : Z;
  duration : Z;
  alarmCount : Z;
  isActive : bool;
  mode : string;
  sessionNumber : Z
}.

Definition setAlarmCount (n : Z) (t : TimerData) : TimerData :=
  {| startTime := startTime t; duration := duration t; alarmCount := n;
     isActive := isActive t; mode := mode t; sessionNumber := sessionNumber t |}.

Definition setIsActive (b : bool) (t : TimerData) : TimerData :=
  {| startTime := startTime t; duration := duration t; alarmCount := alarmCount t;
     isActive := b; mode := mode t; sessionNumber := sessionNumber t |}.

Definition setSessionNumber (n : Z) (t : TimerData) : TimerData :=
  {| startTime := startTime t; duration := duration t; alarmCount := alarmCount t;
     isActive := isActive t; mode := mode t; sessionNumber := n |}.

Definition setStartTime (now : Z) (t : TimerData) : TimerData :=
  {| startTime := now; duration := duration t; alarmCount := alarmCount t;
     isActive := isActive t; mode := mode t; sessionNumber := sessionNumber t |}.

(** [startWorkTimer(userId)]; [now] is the reading of [Date.now()]. The
    result is the returned object and the [activeTimers] map afterwards. *)
Definition startWorkTimer (now : Z) (userId : string)
    (activeTimers : gmap string TimerData) : Value * gmap string TimerData :=
  let timerData :=
    {| startTime := now;
       duration := 40 * 60 * 1000;
       alarmCount := 0;
       isActive := true;
       mode := "work";
       sessionNumber := 1 |} in
  (Obj [ ("success", Boolean true);
         ("message", Str "Starting 40-minute focused work session with AI monitoring");
         ("timer", Str "40:00");
         ("features", Arr [ Str "Stress monitoring active";
                            Str "Break reminders enabled";
                            Str "AI Clone on standby" ]);
         ("status", Str "timer_started");
         ("sessionNumber", Num 1) ],
   <[userId := timerData]> activeTimers).

Definition getMotivationalMessage (minutesLeft : Z) : string :=
  if 30 <? minutesLeft then "Great start! You're in the flow zone."
  else if 20 <? minutesLeft then "Halfway there! Keep up the excellent focus."
  else if 10 <? minutesLeft then "Final stretch! You're doing amazing."
  else "Almost done! Finish strong!".

(** [handleTimerComplete(userId)]. The record fetched from the map is
    mutated in place, so every assignment is an update of the map entry;
    [now] is the reading of [Date.now()] in the first-session branch. *)
Definition handleTimerComplete (now : Z) (userId : string)
    (activeTimers : gmap string TimerData)
  : Completion Value * gmap string TimerData :=
  match activeTimers !! userId with
  | None => (Thrown "TypeError: cannot read properties of undefined", activeTimers)
  | Some timer0 =>
      let timer := setAlarmCount (alarmCount timer0 + 1) timer0 in
      if 2 <=? alarmCount timer then
        let timer := setIsActive false timer in
        (Returned (Obj [
           ("status", Str "ai_clone_activated");
           ("message", Str "Outstanding! You've completed 80 minutes of focused work. AI Clone is now taking over your background tasks.");
           ("alarmCount", Num (alarmCount timer));
           ("action", Str "clone_mode");
           ("totalWorkTime", Str "80 minutes");
           ("cloneActivities", Arr [ Str "Summarizing your study materials";
                                     Str "Organizing notes and resources";
                                     Str "Preparing review questions";
                                     Str "Scheduling your next study session" ]);
           ("breakRecommendation", Str "Take a 10-15 minute break while I handle these tasks.") ]),
         <[userId := timer]> activeTimers)
      else
        let timer := setStartTime now (setSessionNumber 2 timer) in
        (Returned (Obj [
           ("status", Str "session_complete");
           ("message", Str ("Excellent! Session " +:+ toString (sessionNumber timer - 1)
                            +:+ " completed. Take a 5-minute break, then we'll start session 2."));
           ("alarmCount", Num (alarmCount timer));
           ("nextSession", Str "ready_to_start");
           ("breakDuration", Str "5 minutes");
           ("sessionProgress", Str (toString (alarmCount timer) +:+ "/2 sessions completed"));
           ("encouragement", Str "You're building great study habits!") ]),
         <[userId := timer]> activeTimers)
  end.

Definition quoted (s : string) : string :=
  String (ascii_of_N 34) (s +:+ String (ascii_of_N 34) EmptyString).

Definition noActiveTimer : Value :=
  Obj [ ("status", Str "no_active_timer");
        ("message", Str "No active work session. Start one to begin productive studying!");
        ("suggestion", Str ("Try: " +:+ quoted "start 40 minute session"
                            +:+ " or " +:+ quoted "begin work timer")) ].

(** [checkTimerStatus(userId)]; [now] is its own reading of [Date.now()]
    and [now'] the later reading taken inside [handleTimerComplete]. The
    [progress] field of the [active] object, a rounded floating-point
    percentage, is not part of the model. *)
Definition checkTimerStatus (now now' : Z) (userId : string)
    (activeTimers : gmap string TimerData)
  : Completion Value * gmap string TimerData :=
  match activeTimers !! userId with
  | None => (Returned noActiveTimer, activeTimers)
  | Some timer =>
      if negb (isActive timer) then (Returned noActiveTimer, activeTimers)
      else
        let elapsed := now - startTime timer in
        let remaining := Z.max 0 (duration timer - elapsed) in
        let minutes := remaining / 60000 in
        let seconds := Z.rem remaining 60000 / 1000 in
        if remaining <=? 0 then handleTimerComplete now' userId activeTimers
        else
          (Returned (Obj [
             ("status", Str "active");
             ("timeLeft", Str (padStart2 (toString minutes) +:+ ":" +:+ padStart2 (toString seconds)));
             ("sessionNumber", Num (sessionNumber timer));
             ("message", Str ("Work session " +:+ toString (sessionNumber timer)
                              +:+ " in progress. " +:+ toString minutes +:+ " minutes "
                              +:+ toString seconds +:+ " seconds remaining."));
             ("motivationalMessage", Str (getMotivationalMessage minutes)) ]),
           activeTimers)
  end.

End Timer.
Import Timer.

(** ** Command routing *)

Module Router.

(** [generateVoiceResponse(text, responseType)]: the prefix and suffix
    of [voiceResponses[responseType] || voiceResponses.conversation]. *)
Definition voiceResponses (responseType : string) : option (string * string) :=
  if String.eqb responseType "conversation" then
    Some ("I understand what you're asking. ", " Is there anything else you'd like to know?")
  else if String.eqb responseType "scan" then
    Some ("I've scanned the document. ", " Would you like me to explain any specific part?")
  else if String.eqb responseType "timer" then
    Some ("Regarding your work session: ", " Keep up the great work!")
  else if String.eqb responseType "stress" then
    Some ("I'm here to help with your wellbeing. ", " Take your time and breathe deeply.")
  else None.

Definition generateVoiceResponse (text responseType : string) : string :=
  let response :=
    match voiceResponses responseType with
    | Some r => r
    | None => ("I understand what you're asking. ", " Is there anything else you'd like to know?")
    end in
  response.1 +:+ text +:+ response.2.

(** [activateSafeMode()]; [roll] is [Math.floor(Math.random() * 30)]. *)
Definition activateSafeMode (roll : Z) : Value :=
  Obj [ ("status", Str "safe_mode_active");
        ("message", Str "Safe Mode activated. Detecting elevated stress levels - let's take care of your wellbeing.");
        ("stressLevel", Num (roll + 70));
        ("actions", Arr [ Str "Playing calming background sounds";
                          Str "Activating breathing guide";
                          Str "Dimming notifications";
                          Str "Preparing relaxation exercises" ]);
        ("breathingExercise", Obj [
           ("instruction", Str "Let's do some deep breathing together:");
           ("pattern", Str "Inhale for 4 counts, hold for 4, exhale for 6");
           ("duration", Str "2 minutes");
           ("benefit", Str "This will activate your parasympathetic nervous system") ]);
        ("nextSteps", Str "AI Clone will handle urgent tasks while you recover. Focus on your breathing.") ].

Definition cloneStandard : Value :=
  Obj [ ("status", Str "clone_activated");
        ("message", Str "AI Clone activated and working autonomously in background.");
        ("tasks", Arr [ Str "Document analysis and summarization";
                        Str "Research compilation and organization";
                        Str "Note structuring and review prep";
                        Str "Schedule optimization for study sessions" ]);
        ("workingTime", Str "15-20 minutes");
        ("notification", Str "I'll notify you when tasks are completed.") ].

Definition cloneAdvanced : Value :=
  Obj [ ("status", Str "advanced_clone_active");
        ("message", Str "Advanced AI Clone mode engaged - handling complex cognitive tasks.");
        ("tasks", Arr [ Str "Deep document analysis with insights";
                        Str "Cross-referencing multiple sources";
                        Str "Creating comprehensive study guides";
                        Str "Generating practice questions and quizzes";
                        Str "Building concept maps and connections" ]);
        ("workingTime", Str "25-30 minutes");
        ("notification", Str "Advanced processing in progress - perfect time for your break.") ].

(** [activateAIClone(mode)]: [cloneCapabilities[mode] || cloneCapabilities.standard]. *)
Definition activateAIClone (mode : string) : Value :=
  if String.eqb mode "advanced" then cloneAdvanced else cloneStandard.

Definition scanModeReady : Value :=
  Obj [ ("status", Str "scan_mode_ready");
        ("message", Str "I am ready to scan and analyze documents. Please show me what you would like me to read.");
        ("voiceMessage", Str "I am ready to scan documents for you. Please show the document to your camera and I will read and analyze it for you.");
        ("action", Str "prepare_camera_scan") ].

Definition multiModeActive : Value :=
  Obj [ ("status", Str "multi_mode_active");
        ("message", Str "Multi Mode activated! All AURA systems online: Voice AI, Timer, Stress Monitor, Document Scanner, and AI Clone.");
        ("activeFeatures", Arr [ Str "Voice AI"; Str "40-min Timer"; Str "Stress Detection";
                                 Str "AI Clone"; Str "Document Scanner" ]);
        ("capabilities", Str "Full AURA experience with voice commands and document scanning.") ].

(** [result.message] read as text for the voice wrapper. *)
Definition messageOf (result : Value) : string :=
  match get "message" result with
  | Some (Str m) => m
  | _ => "undefined"
  end.

(** [result.voiceMessage = generateVoiceResponse(result.message, kind)]. *)
Definition withVoice (kind : string) (result : Value) : Value :=
  set "voiceMessage" (Str (generateVoiceResponse (messageOf result) kind)) result.

Section Routing.

(** Readings of the outside world during one request: [now] and [now']
    are the successive values of [Date.now()], [roll] the random draw of
    [activateSafeMode]. *)
Variables now now' roll : Z.

(** [handleSpecialCommands(command, userId)]: [Returned None] is the
    [null] that sends the command on to the AI relay. *)
Definition handleSpecialCommands (command userId : string)
    (activeTimers : gmap string TimerData)
  : Completion (option Value) * gmap string TimerData :=
  let lowerCommand := toLowerCase command in
  if includes lowerCommand "start work" || includes lowerCommand "40 minute"
     || includes lowerCommand "begin session" then
    let '(result, timers) := startWorkTimer now userId activeTimers in
    (Returned (Some (withVoice "timer" result)), timers)
  else if includes lowerCommand "timer status" || includes lowerCommand "time left"
     || includes lowerCommand "how much time" then
    match checkTimerStatus now now' userId activeTimers with
    | (Returned result, timers) => (Returned (Some (withVoice "timer" result)), timers)
    | (Thrown e, timers) => (Thrown e, timers)
    end
  else if includes lowerCommand "stressed" || includes lowerCommand "anxious"
     || includes lowerCommand "overwhelmed" || includes lowerCommand "safe mode" then
    (Returned (Some (withVoice "stress" (activateSafeMode roll))), activeTimers)
  else if includes lowerCommand "clone" || includes lowerCommand "background tasks"
     || includes lowerCommand "auto work" then
    let mode := if includes lowerCommand "advanced" then "advanced" else "standard" in
    (Returned (Some (withVoice "conversation" (activateAIClone mode))), activeTimers)
  else if includes lowerCommand "scan" || includes lowerCommand "read document"
     || includes lowerCommand "analyze" then
    (Returned (Some scanModeReady), activeTimers)
  else if includes lowerCommand "multi mode" then
    (Returned (Some (withVoice "conversation" multiModeActive)), activeTimers)
  else (Returned None, activeTimers).

(** The state of the server process. *)
Record Server : Type := {
  activeTimers : gmap string TimerData;
  aiApis : AiApis
}.

Variable keys : gmap string string.
Variable net : Network.
Variables timeString isoTimestamp : string.

(** The [POST /api/aura/process] handler on a body with a string
    [command] and an optional [userId] (default ['default']); the result
    is the JSON document sent back. *)
Definition auraProcess (command : string) (userId : option string) (srv : Server)
  : Completion Value * Server :=
  let userId := default "default" userId in
  match handleSpecialCommands command userId (activeTimers srv) with
  | (Thrown e, timers) => (Thrown e, {| activeTimers := timers; aiApis := aiApis srv |})
  | (Returned (Some specialResponse), timers) =>
      (Returned (Obj [ ("success", Boolean true);
                       ("response", specialResponse);
                       ("api_used", Str "internal_system");
                       ("timestamp", Str isoTimestamp);
                       ("commandType", Str "system_command") ]),
       {| activeTimers := timers; aiApis := aiApis srv |})
  | (Returned None, timers) =>
      let run := getAIResponse keys net timeString command (aiApis srv) in
      match value run with
      | Thrown e => (Thrown e, {| activeTimers := timers; aiApis := apis run |})
      | Returned aiResponse =>
          (Returned (Obj [ ("success", Boolean true);
                           ("response", Str aiResponse);
                           ("api_used", Str (currentActive (apis run)));
                           ("timestamp", Str isoTimestamp);
                           ("commandType", Str "ai_conversation") ]),
           {| activeTimers := timers; aiApis := apis run |})
      end
  end.

End Routing.

End Router.
Import Router.

(** ** The remaining server routes: document scanning, voice, status *)

Module Routes.

(** [s.substring(0, n)]. *)
Fixpoint takeChars (n : nat) (s : string) : string :=
  match n, s with
  | S n', String c rest => String c (takeChars n' rest)
  | _, _ => EmptyString
  end.

(** One entry of the [documentTypes] catalog of [processDocument]. *)
Record DocumentType : Type := {
  type : string;
  content : string;
  keyPoints : list string
}.

Definition documentTypes : list DocumentType :=
  [ {| type := "Research Paper";
       content := "This appears to be a research paper about machine learning and artificial intelligence. Key topics include neural networks, deep learning algorithms, and their applications in computer vision.";
       keyPoints := [ "Machine learning fundamentals";
                      "Neural network architectures";
                      "Deep learning applications";
                      "Computer vision techniques" ] |};
    {| type := "Textbook Chapter";
       content := "This is a textbook chapter covering programming concepts. It discusses variables, functions, loops, and object-oriented programming principles.";
       keyPoints := [ "Variables and data types";
                      "Control structures and loops";
                      "Functions and methods";
                      "Object-oriented programming" ] |};
    {| type := "Assignment/Notes";
       content := "These appear to be study notes or assignment content covering various academic topics with bullet points and explanations.";
       keyPoints := [ "Key concepts highlighted";
                      "Important definitions";
                      "Examples and explanations";
                      "Summary points" ] |} ].

(** [processDocument(imagePath)]. [docRoll] is
    [Math.floor(Math.random() * documentTypes.length)] and [confRoll] is
    [Math.floor(Math.random() * 30)]; an index outside the catalog reads
    [undefined], whose [type] cannot be read. *)
Definition processDocument (docRoll : nat) (confRoll : Z) (imagePath : string)
  : Completion Value :=
  match nth_error documentTypes docRoll with
  | None => Thrown "TypeError: cannot read properties of undefined"
  | Some randomDoc =>
      Returned (Obj [
        ("success", Boolean true);
        ("documentType", Str (type randomDoc));
        ("content", Str (content randomDoc));
        ("keyPoints", Arr (map Str (keyPoints randomDoc)));
        ("summary", Str ("I've analyzed this " +:+ toLowerCase (type randomDoc) +:+ ". "
                         +:+ content randomDoc));
        ("voiceResponse", Str ("I can see this is a " +:+ toLowerCase (type randomDoc)
                               +:+ ". Let me tell you what I found: "
                               +:+ takeChars 200 (content randomDoc) +:+ "..."));
        ("confidence", Num (confRoll + 70)) ])
  end.

(** A field read as text ([undefined] prints as such). *)
Definition textOf (name : string) (o : Value) : string :=
  match get name o with
  | Some (Str t) => t
  | Some (Num n) => toString n
  | _ => "undefined"
  end.

Definition orNull (v : option Value) : Value :=
  match v with
  | Some x => x
  | None => Null
  end.


(** The upload that [multer] hands to the document route. *)
Record Upload : Type := {
  filename : string;
  path : string
}.

(** The [POST /api/scan/document] handler: the JSON document sent back,
    and the path whose deletion it schedules (after five seconds), if
    any. *)
Definition scanDocument (docRoll : nat) (confRoll : Z) (isoTimestamp : string)
    (file : option Upload) : Value * option string :=
  match file with
  | None =>
      (Obj [ ("success", Boolean false); ("error", Str "No document image provided") ], None)
  | Some upload =>
      match processDocument docRoll confRoll (path upload) with
      | Returned scanResult =>
          let voiceMessage := generateVoiceResponse (textOf "voiceResponse" scanResult) "scan" in
          (Obj [ ("success", Boolean true);
                 ("scan", set "visualData"
                            (Obj [ ("documentType", orNull (get "documentType" scanResult));
                                   ("keyPoints", orNull (get "keyPoints" scanResult));
                                   ("confidence", orNull (get "confidence" scanResult)) ])
                            (set "voiceMessage" (Str voiceMessage) scanResult));
                 ("timestamp", Str isoTimestamp);
                 ("inputType", Str "document_scan") ],
           Some (path upload))
      | Thrown _ =>
          (Obj [ ("success", Boolean false);
                 ("error", Str "Failed to process document");
                 ("voiceMessage", Str "I encountered an issue while scanning the document. Please try again with better lighting or a clearer image.") ],
           None)
      end
  end.

(** [key && key !== placeholder] of the status route. *)
Definition hasRealKey (key : option string) (placeholder : string) : bool :=
  truthy key && negb (String.eqb (default EmptyString key) placeholder).

(** The [apiStatus] object of [GET /api/status], in assignment order. *)
Definition apiStatus (keys : gmap string string) : list (string * bool) :=
  [ ("groq", hasRealKey (keys !! "GROQ_API_KEY") "YOUR_GROQ_KEY_HERE");
    ("openai", hasRealKey (keys !! "OPENAI_API_KEY") "YOUR_OPENAI_KEY_HERE");
    ("gemini", hasRealKey (keys !! "GEMINI_API_KEY") "YOUR_GEMINI_KEY_HERE");
    ("huggingface", hasRealKey (keys !! "HUGGINGFACE_TOKEN") "YOUR_HF_KEY_HERE") ].

(** [Object.keys(apiStatus).filter(api => apiStatus[api])]. *)
Definition availableAPIs (keys : gmap string string) : list string :=
  map fst (List.filter snd (apiStatus keys)).

(** The JSON document of [GET /api/status]. *)
Definition statusRoute (keys : gmap string string) (isoTimestamp : string) (st : AiApis)
  : Value :=
  Obj [ ("currentActiveAPI", Str (currentActive st));
        ("availableAPIs", Arr (map Str (availableAPIs keys)));
        ("systemStatus", Str "operational");
        ("features", Obj [ ("aiConversation", Boolean true);
                           ("timerSystem", Boolean true);
                           ("safeMode", Boolean true);
                           ("aiClone", Boolean true);
                           ("autoAPISwitch", Boolean true) ]);
        ("timestamp", Str isoTimestamp) ].

Definition scanRequest : Value :=
  Obj [ ("type", Str "scan_request");
        ("message", Str "Please show me the document you want me to scan. I can analyze research papers, textbooks, notes, or any written content.");
        ("voiceMessage", Str "I'm ready to scan a document for you. Please show it to your camera and I'll analyze the content and explain it to you.");
        ("action", Str "activate_camera") ].

(** The [POST /api/voice/process] handler on a body with a string
    [command]. *)
Definition voiceProcess (keys : gmap string string) (net : Network)
    (timeString isoTimestamp : string) (command : string) (srv : Server)
  : Completion Value * Server :=
  let lowerCommand := toLowerCase command in
  if includes lowerCommand "scan" || includes lowerCommand "document"
     || includes lowerCommand "read" then
    (Returned (Obj [ ("success", Boolean true);
                     ("response", scanRequest);
                     ("timestamp", Str isoTimestamp);
                     ("inputType", Str "voice") ]),
     srv)
  else
    let run := getAIResponse keys net timeString command (aiApis srv) in
    match value run with
    | Thrown e => (Thrown e, {| activeTimers := activeTimers srv; aiApis := apis run |})
    | Returned aiResponse =>
        let voiceResponse := generateVoiceResponse aiResponse "conversation" in
        (Returned (Obj [ ("success", Boolean true);
                         ("response", Obj [ ("type", Str "conversation");
                                            ("message", Str aiResponse);
                                            ("voiceMessage", Str voiceResponse) ]);
                         ("timestamp", Str isoTimestamp);
                         ("inputType", Str "voice") ]),
         {| activeTimers := activeTimers srv; aiApis := apis run |})
    end.

End Routes.
Import Routes.

(** ** The page script: timer display, modes and reply handling

    The script of the page drives the browser: what is modelled here is
    its own state [AuraState], the timers it sets (by identifier), the
    texts it writes into the page and the messages it appends to the
    chat and hands to speech synthesis. Styling, button captions, the
    progress bar (a floating-point width), the loading indicator, the
    camera and speech-recognition devices and the rendered time stamp of
    a chat message are not part of the model. *)

Module Client.

(** The [AuraState] object; [synthesis] records whether the browser
    offers speech synthesis, [timerInterval] holds the identifier of
    the interval set last, or [null]. *)
Record AuraState : Type := {
  currentMode : string;
  isListening : bool;
  isSpeaking : bool;
  timerActive : bool;
  timerInterval : option nat;
  timeLeft : Z;
  sessionNumber : Z;
  alarmCount : Z;
  cloneActive : bool;
  synthesis : bool
}.

Definition initialState (synthesis : bool) : AuraState :=
  {| currentMode := "normal"; isListening := false; isSpeaking := false;
     timerActive := false; timerInterval := None; timeLeft := 2400;
     sessionNumber := 0; alarmCount := 0; cloneActive := false;
     synthesis := synthesis |}.

Definition setCurrentMode (v : string) (a : AuraState) : AuraState :=
  {| currentMode := v;
     isListening := isListening a;
     isSpeaking := isSpeaking a;
     timerActive := timerActive a;
     timerInterval := timerInterval a;
     timeLeft := timeLeft a;
     sessionNumber := sessionNumber a;
     alarmCount := alarmCount a;
     cloneActive := cloneActive a;
     synthesis := synthesis a |}.

Definition setTimerActive (v : bool) (a : AuraState) : AuraState :=
  {| currentMode := currentMode a;
     isListening := isListening a;
     isSpeaking := isSpeaking a;
     timerActive := v;
     timerInterval := timerInterval a;
     timeLeft := timeLeft a;
     sessionNumber := sessionNumber a;
     alarmCount := alarmCount a;
     cloneActive := cloneActive a;
     synthesis := synthesis a |}.

Definition setTimerInterval (v : option nat) (a : AuraState) : AuraState :=
  {| currentMode := currentMode a;
     isListening := isListening a;
     isSpeaking := isSpeaking a;
     timerActive := timerActive a;
     timerInterval := v;
     timeLeft := timeLeft a;
     sessionNumber := sessionNumber a;
     alarmCount := alarmCount a;
     cloneActive := cloneActive a;
     synthesis := synthesis a |}.

Definition setTimeLeft (v : Z) (a : AuraState) : AuraState :=
  {| currentMode := currentMode a;
     isListening := isListening a;
     isSpeaking := isSpeaking a;
     timerActive := timerActive a;
     timerInterval := timerInterval a;
     timeLeft := v;
     sessionNumber := sessionNumber a;
     alarmCount := alarmCount a;
     cloneActive := cloneActive a;
     synthesis := synthesis a |}.

Definition setSessionNumber (v : Z) (a : AuraState) : AuraState :=
  {| currentMode := currentMode a;
     isListening := isListening a;
     isSpeaking := isSpeaking a;
     timerActive := timerActive a;
     timerInterval := timerInterval a;
     timeLeft := timeLeft a;
     sessionNumber := v;
     alarmCount := alarmCount a;
     cloneActive := cloneActive a;
     synthesis := synthesis a |}.

Definition setAlarmCount (v : Z) (a : AuraState) : AuraState :=
  {| currentMode := currentMode a;
     isListening := isListening a;
     isSpeaking := isSpeaking a;
     timerActive := timerActive a;
     timerInterval := timerInterval a;
     timeLeft := timeLeft a;
     sessionNumber := sessionNumber a;
     alarmCount := v;
     cloneActive := cloneActive a;
     synthesis := synthesis a |}.

Definition setCloneActive (v : bool) (a : AuraState) : AuraState :=
  {| currentMode := currentMode a;
     isListening := isListening a;
     isSpeaking := isSpeaking a;
     timerActive := timerActive a;
     timerInterval := timerInterval a;
     timeLeft := timeLeft a;
     sessionNumber := sessionNumber a;
     alarmCount := alarmCount a;
     cloneActive := v;
     synthesis := synthesis a |}.

(** The page around it: the live countdown intervals and clone
    simulation intervals (the latter with the index their callback has
    reached), the one-shot timeouts waiting to add a clone activity, the
    next timer identifier, the texts of the timer, session, alarm and
    mode elements, the state of the clone button and status line, the
    items of the clone activity list, the chat transcript (sender,
    text) and the utterances handed to speech synthesis. *)
Record Page : Type := {
  aura : AuraState;
  countdowns : list nat;
  simulations : list (nat * nat);
  pending : list (Z * string);
  nextId : nat;
  timerDisplay : string;
  sessionLabel : string;
  alarmLabel : string;
  modeLabel : option string;
  cloneBtnDisabled : bool;
  cloneStatusText : string;
  activities : list string;
  chat : list (string * string);
  spoken : list string
}.

Definition putAura (v : AuraState) (p : Page) : Page :=
  {| aura := v;
     countdowns := countdowns p;
     simulations := simulations p;
     pending := pending p;
     nextId := nextId p;
     timerDisplay := timerDisplay p;
     sessionLabel := sessionLabel p;
     alarmLabel := alarmLabel p;
     modeLabel := modeLabel p;
     cloneBtnDisabled := cloneBtnDisabled p;
     cloneStatusText := cloneStatusText p;
     activities := activities p;
     chat := chat p;
     spoken := spoken p |}.

Definition putCountdowns (v : list nat) (p : Page) : Page :=
  {| aura := aura p;
     countdowns := v;
     simulations := simulations p;
     pending := pending p;
     nextId := nextId p;
     timerDisplay := timerDisplay p;
     sessionLabel := sessionLabel p;
     alarmLabel := alarmLabel p;
     modeLabel := modeLabel p;
     cloneBtnDisabled := cloneBtnDisabled p;
     cloneStatusText := cloneStatusText p;
     activities := activities p;
     chat := chat p;
     spoken := spoken p |}.

Definition putSimulations (v : list (nat * nat)) (p : Page) : Page :=
  {| aura := aura p;
     countdowns := countdowns p;
     simulations := v;
     pending := pending p;
     nextId := nextId p;
     timerDisplay := timerDisplay p;
     sessionLabel := sessionLabel p;
     alarmLabel := alarmLabel p;
     modeLabel := modeLabel p;
     cloneBtnDisabled := cloneBtnDisabled p;
     cloneStatusText := cloneStatusText p;
     activities := activities p;
     chat := chat p;
     spoken := spoken p |}.

Definition putPending (v : list (Z * string)) (p : Page) : Page :=
  {| aura := aura p;
     countdowns := countdowns p;
     simulations := simulations p;
     pending := v;
     nextId := nextId p;
     timerDisplay := timerDisplay p;
     sessionLabel := sessionLabel p;
     alarmLabel := alarmLabel p;
     modeLabel := modeLabel p;
     cloneBtnDisabled := cloneBtnDisabled p;
     cloneStatusText := cloneStatusText p;
     activities := activities p;
     chat := chat p;
     spoken := spoken p |}.

Definition putNextId (v : nat) (p : Page) : Page :=
  {| aura := aura p;
     countdowns := countdowns p;
     simulations := simulations p;
     pending := pending p;
     nextId := v;
     timerDisplay := timerDisplay p;
     sessionLabel := sessionLabel p;
     alarmLabel := alarmLabel p;
     modeLabel := modeLabel p;
     cloneBtnDisabled := cloneBtnDisabled p;
     cloneStatusText := cloneStatusText p;
     activities := activities p;
     chat := chat p;
     spoken := spoken p |}.

Definition putTimerDisplay (v : string) (p : Page) : Page :=
  {| aura := aura p;
     countdowns := countdowns p;
     simulations := simulations p;
     pending := pending p;
     nextId := nextId p;
     timerDisplay := v;
     sessionLabel := sessionLabel p;
     alarmLabel := alarmLabel p;
     modeLabel := modeLabel p;
     cloneBtnDisabled := cloneBtnDisabled p;
     cloneStatusText := cloneStatusText p;
     activities := activities p;
     chat := chat p;
     spoken := spoken p |}.

Definition putSessionLabel (v : string) (p : Page) : Page :=
  {| aura := aura p;
     countdowns := countdowns p;
     simulations := simulations p;
     pending := pending p;
     nextId := nextId p;
     timerDisplay := timerDisplay p;
     sessionLabel := v;
     alarmLabel := alarmLabel p;
     modeLabel := modeLabel p;
     cloneBtnDisabled := cloneBtnDisabled p;
     cloneStatusText := cloneStatusText p;
     activities := activities p;
     chat := chat p;
     spoken := spoken p |}.

Definition putAlarmLabel (v : string) (p : Page) : Page :=
  {| aura := aura p;
     countdowns := countdowns p;
     simulations := simulations p;
     pending := pending p;
     nextId := nextId p;
     timerDisplay := timerDisplay p;
     sessionLabel := sessionLabel p;
     alarmLabel := v;
     modeLabel := modeLabel p;
     cloneBtnDisabled := cloneBtnDisabled p;
     cloneStatusText := cloneStatusText p;
     activities := activities p;
     chat := chat p;
     spoken := spoken p |}.

Definition putModeLabel (v : option string) (p : Page) : Page :=
  {| aura := aura p;
     countdowns := countdowns p;
     simulations := simulations p;
     pending := pending p;
     nextId := nextId p;
     timerDisplay := timerDisplay p;
     sessionLabel := sessionLabel p;
     alarmLabel := alarmLabel p;
     modeLabel := v;
     cloneBtnDisabled := cloneBtnDisabled p;
     cloneStatusText := cloneStatusText p;
     activities := activities p;
     chat := chat p;
     spoken := spoken p |}.

Definition putCloneBtnDisabled (v : bool) (p : Page) : Page :=
  {| aura := aura p;
     countdowns := countdowns p;
     simulations := simulations p;
     pending := pending p;
     nextId := nextId p;
     timerDisplay := timerDisplay p;
     sessionLabel := sessionLabel p;
     alarmLabel := alarmLabel p;
     modeLabel := modeLabel p;
     cloneBtnDisabled := v;
     cloneStatusText := cloneStatusText p;
     activities := activities p;
     chat := chat p;
     spoken := spoken p |}.

Definition putCloneStatusText (v : string) (p : Page) : Page :=
  {| aura := aura p;
     countdowns := countdowns p;
     simulations := simulations p;
     pending := pending p;
     nextId := nextId p;
     timerDisplay := timerDisplay p;
     sessionLabel := sessionLabel p;
     alarmLabel := alarmLabel p;
     modeLabel := modeLabel p;
     cloneBtnDisabled := cloneBtnDisabled p;
     cloneStatusText := v;
     activities := activities p;
     chat := chat p;
     spoken := spoken p |}.

Definition putActivities (v : list string) (p : Page) : Page :=
  {| aura := aura p;
     countdowns := countdowns p;
     simulations := simulations p;
     pending := pending p;
     nextId := nextId p;
     timerDisplay := timerDisplay p;
     sessionLabel := sessionLabel p;
     alarmLabel := alarmLabel p;
     modeLabel := modeLabel p;
     cloneBtnDisabled := cloneBtnDisabled p;
     cloneStatusText := cloneStatusText p;
     activities := v;
     chat := chat p;
     spoken := spoken p |}.

Definition putChat (v : list (string * string)) (p : Page) : Page :=
  {| aura := aura p;
     countdowns := countdowns p;
     simulations := simulations p;
     pending := pending p;
     nextId := nextId p;
     timerDisplay := timerDisplay p;
     sessionLabel := sessionLabel p;
     alarmLabel := alarmLabel p;
     modeLabel := modeLabel p;
     cloneBtnDisabled := cloneBtnDisabled p;
     cloneStatusText := cloneStatusText p;
     activities := activities p;
     chat := v;
     spoken := spoken p |}.

Definition putSpoken (v : list string) (p : Page) : Page :=
  {| aura := aura p;
     countdowns := countdowns p;
     simulations := simulations p;
     pending := pending p;
     nextId := nextId p;
     timerDisplay := timerDisplay p;
     sessionLabel := sessionLabel p;
     alarmLabel := alarmLabel p;
     modeLabel := modeLabel p;
     cloneBtnDisabled := cloneBtnDisabled p;
     cloneStatusText := cloneStatusText p;
     activities := activities p;
     chat := chat p;
     spoken := v |}.

(** [AuraState.field = v]. *)
Definition update (f : AuraState -> AuraState) (p : Page) : Page :=
  putAura (f (aura p)) p.

(** [addMessage(sender, text)]. *)
Definition addMessage (sender text : string) (p : Page) : Page :=
  putChat (chat p ++ [(sender, text)]) p.

(** [addSystemMessage(text)]. *)
Definition addSystemMessage (text : string) (p : Page) : Page :=
  addMessage "system" ("🔧 " +:+ text) p.

(** [speak(text)]: nothing happens without speech synthesis or while an
    utterance is being spoken. *)
Definition speak (text : string) (p : Page) : Page :=
  if negb (synthesis (aura p)) || isSpeaking (aura p) then p
  else putSpoken (spoken p ++ [text]) p.

(** [modeNames[mode]]. *)
Definition modeNames (mode : string) : option string :=
  if String.eqb mode "normal" then Some "Normal Mode"
  else if String.eqb mode "dual" then Some "Dual Mode"
  else if String.eqb mode "multi" then Some "Multi Mode"
  else None.

(** A value inside a template literal. *)
Definition shown (v : option string) : string :=
  match v with
  | Some t => t
  | None => "undefined"
  end.

(** [setMode(mode)]. *)
Definition setMode (mode : string) (p : Page) : Page :=
  let p := update (setCurrentMode mode) p in
  let p := putModeLabel (modeNames mode) p in
  let p := putCloneBtnDisabled (negb (String.eqb mode "multi")) p in
  addSystemMessage ("Switched to " +:+ shown (modeNames mode)
                    +:+ ". All corresponding systems are now active.") p.

(** [updateTimerDisplay(timeString)]: a non-empty argument is shown as
    it is; otherwise the display is computed from [timeLeft]. *)
Definition updateTimerDisplay (timeString : option string) (p : Page) : Page :=
  if truthy timeString then putTimerDisplay (default EmptyString timeString) p
  else
    let minutes := timeLeft (aura p) / 60 in
    let seconds := Z.rem (timeLeft (aura p)) 60 in
    putTimerDisplay (padStart2 (toString minutes) +:+ ":" +:+ padStart2 (toString seconds)) p.

(** [updateSessionDisplay()]. *)
Definition updateSessionDisplay (p : Page) : Page :=
  putSessionLabel ("Session " +:+ toString (sessionNumber (aura p))) p.

(** [startTimerDisplay()]: the new interval is added to the live ones
    and becomes [timerInterval]; an interval set earlier is not
    cleared. *)
Definition startTimerDisplay (p : Page) : Page :=
  let p := update (setTimerActive true) p in
  let p := update (setTimeLeft 2400) p in
  let p := update (setSessionNumber (sessionNumber (aura p) + 1)) p in
  let p := updateSessionDisplay p in
  let id := nextId p in
  let p := putCountdowns (countdowns p ++ [id]) (putNextId (S id) p) in
  update (setTimerInterval (Some id)) p.

(** [stopTimer()]: only the interval in [timerInterval] is cleared. *)
Definition stopTimer (p : Page) : Page :=
  let p := update (setTimerActive false) p in
  let p :=
    match timerInterval (aura p) with
    | Some id =>
        update (setTimerInterval None)
               (putCountdowns (List.filter (fun i => negb (Nat.eqb i id)) (countdowns p)) p)
    | None => p
    end in
  updateTimerDisplay (Some "40:00") p.

(** [addCloneActivity(activity)]: the item is appended, and the oldest
    item is removed when more than three are shown. *)
Definition addCloneActivity (activity : string) (p : Page) : Page :=
  let items := activities p ++ [activity] in
  putActivities (if (3 <? length items)%nat then tl items else items) p.

Definition simulatedActivities : list string :=
  [ "Analyzing your study materials...";
    "Creating document summaries...";
    "Organizing research notes...";
    "Preparing review questions...";
    "Scheduling optimal study times...";
    "Generating practice exercises..." ].

(** [activateCloneDisplay()], with the interval that
    [simulateCloneActivities()] sets, its index at 0. *)
Definition activateCloneDisplay (p : Page) : Page :=
  let p := update (setCloneActive true) p in
  let p := putCloneStatusText "Active - Working" p in
  let p := putCloneBtnDisabled true p in
  let id := nextId p in
  putSimulations (simulations p ++ [(id, 0%nat)]) (putNextId (S id) p).

(** One firing of the interval of [simulateCloneActivities()] with
    identifier [id]; a cleared interval does not fire. *)
Definition simulationTick (id : nat) (p : Page) : Page :=
  match List.find (fun e => Nat.eqb e.1 id) (simulations p) with
  | None => p
  | Some (_, index) =>
      match nth_error simulatedActivities index with
      | Some activity =>
          addCloneActivity activity
            (putSimulations
               (map (fun e => if Nat.eqb e.1 id then (e.1, S e.2) else e) (simulations p)) p)
      | None =>
          addCloneActivity "All tasks completed successfully!"
            (putSimulations
               (List.filter (fun e => negb (Nat.eqb e.1 id)) (simulations p)) p)
      end
  end.

(** [showCloneActivities(activities)]: one timeout per activity, the
    [index]-th after [index] seconds. *)
Fixpoint scheduleActivities (index : Z) (items : list string) (p : Page) : Page :=
  match items with
  | [] => p
  | activity :: rest =>
      scheduleActivities (index + 1) rest
        (putPending (pending p ++ [(index * 1000, activity)]) p)
  end.

Definition showCloneActivities (items : list string) (p : Page) : Page :=
  scheduleActivities 0 items p.

(** The page's [handleTimerComplete()]. *)
Definition handleTimerComplete (p : Page) : Page :=
  let p := stopTimer p in
  let p := update (setAlarmCount (alarmCount (aura p) + 1)) p in
  let p := putAlarmLabel (toString (alarmCount (aura p)) +:+ "/2") p in
  if 2 <=? alarmCount (aura p) then
    let p := activateCloneDisplay p in
    let p := addSystemMessage "Two work sessions completed! AI Clone is now taking over background tasks." p in
    let p := speak "Excellent work! You have completed 80 minutes of focused study. I am now activating your AI clone to handle background tasks while you take a well-deserved break." p in
    let p := update (setAlarmCount 0) p in
    putAlarmLabel "0/2" p
  else
    let p := addSystemMessage ("Work session " +:+ toString (alarmCount (aura p))
                               +:+ " completed! Take a 5-minute break before the next session.") p in
    speak ("Great job! Session " +:+ toString (alarmCount (aura p))
           +:+ " is complete. Take a 5 minute break, then we will start your second focused session.") p.

(** One firing of the countdown interval with identifier [id]; a
    cleared interval does not fire. *)
Definition countdownTick (id : nat) (p : Page) : Page :=
  if existsb (Nat.eqb id) (countdowns p) then
    let p := update (setTimeLeft (timeLeft (aura p) - 1)) p in
    let p := updateTimerDisplay None p in
    if timeLeft (aura p) <=? 0 then handleTimerComplete p else p
  else p.

(** [activateSafeModeDisplay()] (the change of background colour is not
    modelled). *)
Definition activateSafeModeDisplay (p : Page) : Page :=
  addSystemMessage "Safe Mode activated. Implementing stress reduction protocols." p.

(** [status.split('_')[0]]. *)
Fixpoint beforeUnderscore (s : string) : string :=
  match s with
  | EmptyString => EmptyString
  | String c rest =>
      if Ascii.eqb c "_" then EmptyString else String c (beforeUnderscore rest)
  end.

Definition statusOf (response : Value) : option string :=
  match get "status" response with
  | Some (Str s) => Some s
  | _ => None
  end.

Definition textsOf (v : option Value) : list string :=
  match v with
  | Some (Arr items) =>
      flat_map (fun item => match item with Str t => [t] | _ => [] end) items
  | _ => []
  end.

(** [handleSpecialResponse(response)] on a reply as the server sends
    it: a string, on which nothing happens, or an object whose [status],
    [timeLeft], [message] and [voiceMessage], when present, are strings,
    whose [sessionNumber] is a number and whose [cloneActivities] is a
    list of strings. It is never called on [null]. *)
Definition handleSpecialResponse (response : Value) (p : Page) : Page :=
  match response with
  | Obj _ =>
      let status := statusOf response in
      let p :=
        if String.eqb (default EmptyString status) "timer_started" then
          let p := startTimerDisplay p in
          let n := match get "sessionNumber" response with
                   | Some (Num n) => if n =? 0 then 1 else n
                   | _ => 1
                   end in
          updateSessionDisplay (update (setSessionNumber n) p)
        else p in
      let p :=
        match get "timeLeft" response with
        | Some (Str (String c rest)) =>
            if String.eqb (default EmptyString status) "active"
            then updateTimerDisplay (Some (String c rest)) p else p
        | _ => p
        end in
      let p :=
        if String.eqb (default EmptyString status) "ai_clone_activated" then
          let p := activateCloneDisplay p in
          match get "cloneActivities" response with
          | Some (Arr items) => showCloneActivities (textsOf (Some (Arr items))) p
          | _ => p
          end
        else p in
      let p :=
        if String.eqb (default EmptyString status) "safe_mode_active"
        then activateSafeModeDisplay p else p in
      if includes (default EmptyString status) "mode_active"
      then setMode (beforeUnderscore (default EmptyString status)) p
      else p
  | _ => p
  end.

(** [data.response.message || data.response], as text, for a response
    that is a string or an object whose [message], when present, is a
    string. *)
Definition responseText (response : Value) : string :=
  match response with
  | Str t => t
  | Obj fields =>
      match getField "message" fields with
      | Some (Str (String c rest)) => String c rest
      | _ => "[object Object]"
      end
  | _ => "undefined"
  end.

Definition voiceOf (response : Value) : option string :=
  match get "voiceMessage" response with
  | Some (Str (String c rest)) => Some (String c rest)
  | _ => None
  end.

(** The part of [processMessage] that follows the request: [reply] is
    the JSON document received, or the failure of the request. Reading
    [data.response.message] of a missing or [null] response throws, and
    the [catch] block answers like a failed request. *)
Definition receive (reply : Completion Value) (p : Page) : Page :=
  match reply with
  | Thrown _ =>
      addMessage "aura" "I'm having trouble connecting to my AI systems. Please check your connection and try again." p
  | Returned data =>
      match get "success" data with
      | Some (Boolean true) =>
          match get "response" data with
          | None | Some Null =>
              addMessage "aura" "I'm having trouble connecting to my AI systems. Please check your connection and try again." p
          | Some response =>
              let p := addMessage "aura" (responseText response) p in
              let p := speak (default (responseText response) (voiceOf response)) p in
              handleSpecialResponse response p
          end
      | _ =>
          addMessage "aura" "I apologize, but I encountered an issue processing your request. Please try again." p
      end
  end.

(** What a press of a button of the page sends to [/api/aura/process],
    if anything, and the page afterwards. *)
Definition startWorkSession (p : Page) : option string * Page :=
  if timerActive (aura p) then (None, stopTimer p)
  else (Some "start work session", p).

Definition activateClone (p : Page) : option string * Page :=
  if negb (String.eqb (currentMode (aura p)) "multi") then
    (None, addSystemMessage "AI Clone requires Multi Mode. Please switch modes first." p)
  else (Some "activate AI clone", p).

Definition activateSafeMode (p : Page) : option string * Page :=
  (Some "activate safe mode", p).

(** [quickAction(action)], for the action names of the page's buttons
    (any other name is taken to have no entry in [actions]). *)
Definition quickAction (action : string) (p : Page) : option string * Page :=
  let command :=
    if String.eqb action "stress" then Some "I am feeling stressed and need help"
    else if String.eqb action "scan" then Some "scan document for me"
    else if String.eqb action "status" then Some "what is my current status and timer info"
    else None in
  match command with
  | Some text => (Some text, addMessage "user" text p)
  | None => (None, p)
  end.

(** A text message of the page answered by the server: the request
    body carries the command and the mode, never a user identifier. *)
Definition exchange (now now' roll : Z) (keys : gmap string string) (net : Network)
    (timeString isoTimestamp : string) (command : string) (srv : Server) (p : Page)
  : Server * Page :=
  let '(reply, srv') :=
    auraProcess now now' roll keys net timeString isoTimestamp command None srv in
  (srv', receive reply p).

End Client.

(** ** Statements compared with the code *)

Module Statements.



(** The preferred provider answered: it has a credential and its call
    returned non-empty text. *)
Definition preferredSucceeds (keys : gmap string string) (net : Network)
    (message : string) (st : AiApis) : Prop :=
  hasCredential keys (currentActive st) = true /\
  exists method, apiMethods (currentActive st) = Some method /\
                 truthy (method (net 0%nat (currentActive st)) message) = true.


(** A second start as the specification words it: while the session of
    [userId] is active and inside its window, [startWorkTimer] leaves
    its [startTime] alone. *)
Definition startKeepsRunningSession (now : Z) (userId : string)
    (activeTimers : gmap string TimerData) : Prop :=
  forall timer, activeTimers !! userId = Some timer ->
    isActive timer = true ->
    now - startTime timer < duration timer ->
    exists timer', (startWorkTimer now userId activeTimers).2 !! userId = Some timer' /\
                   startTime timer' = startTime timer.

(** The routing policy as the specification words it: an ordered table
    of trigger keyword sets, the first matching row wins. *)
Inductive Handler : Type :=
| SessionStart | TimerStatus | SafeMode | Clone | ScanIntent | ModeSwitch.

Definition triggers : list (Handler * list string) :=
  [ (SessionStart, ["start work"; "40 minute"; "begin session"]);
    (TimerStatus, ["timer status"; "time left"; "how much time"]);
    (SafeMode, ["stressed"; "anxious"; "overwhelmed"; "safe mode"]);
    (Clone, ["clone"; "background tasks"; "auto work"]);
    (ScanIntent, ["scan"; "read document"; "analyze"]);
    (ModeSwitch, ["multi mode"]) ].

Definition matchesAny (lowerCommand : string) (keywords : list string) : bool :=
  existsb (includes lowerCommand) keywords.

Definition firstMatch (lowerCommand : string) : option Handler :=
  match List.find (fun row => matchesAny lowerCommand row.2) triggers with
  | Some row => Some row.1
  | None => None
  end.

(** What each row of the table runs. *)
Definition dispatch (now now' roll : Z) (h : option Handler)
    (lowerCommand userId : string) (activeTimers : gmap string TimerData)
  : Completion (option Value) * gmap string TimerData :=
  match h with
  | Some SessionStart =>
      (Returned (Some (withVoice "timer" (startWorkTimer now userId activeTimers).1)),
       (startWorkTimer now userId activeTimers).2)
  | Some TimerStatus =>
      match checkTimerStatus now now' userId activeTimers with
      | (Returned result, timers) => (Returned (Some (withVoice "timer" result)), timers)
      | (Thrown e, timers) => (Thrown e, timers)
      end
  | Some SafeMode =>
      (Returned (Some (withVoice "stress" (activateSafeMode roll))), activeTimers)
  | Some Clone =>
      (Returned (Some (withVoice "conversation"
         (activateAIClone (if includes lowerCommand "advanced" then "advanced" else "standard")))),
       activeTimers)
  | Some ScanIntent => (Returned (Some scanModeReady), activeTimers)
  | Some ModeSwitch => (Returned (Some (withVoice "conversation" multiModeActive)), activeTimers)
  | None => (Returned None, activeTimers)
  end.

(** Sequences of timer operations, as issued by any users at any times. *)
Inductive TimerOp : Type :=
| Start (now : Z) (userId : string)
| Poll (now now' : Z) (userId : string).

Definition applyOp (activeTimers : gmap string TimerData) (op : TimerOp)
  : gmap string TimerData :=
  match op with
  | Start now userId => (startWorkTimer now userId activeTimers).2
  | Poll now now' userId => (checkTimerStatus now now' userId activeTimers).2
  end.

Definition runOps (ops : list TimerOp) (activeTimers : gmap string TimerData)
  : gmap string TimerData :=
  fold_left applyOp ops activeTimers.

Definition isPoll (op : TimerOp) : Prop :=
  match op with
  | Poll _ _ _ => True
  | Start _ _ => False
  end.

(** A deployment with a Groq key and an OpenAI key, a network on which
    only OpenAI answers, and a network on which nothing answers. *)
Definition sampleKeys : gmap string string :=
  API_KEYS (<["GROQ_API_KEY" := "gsk-test"]> {[ "OPENAI_API_KEY" := "sk-test" ]}).

Definition onlyOpenAI : Network :=
  fun _ name => if String.eqb name "openai" then Text "Happy to help." else HttpNotOk.

Definition nothingAnswers : Network := fun _ _ => HttpNotOk.

(** The configuration after one request served by OpenAI. *)
Definition afterOpenAI : AiApis :=
  apis (getAIResponse sampleKeys onlyOpenAI "10:15:00" "hello" AI_APIS).

(** A provider name that [apiMethods] has a call function for. *)
Definition known (b : string) : Prop := is_Some (apiMethods b).

(** The invariant of a timer record. *)
Definition timerInvariant (timer : TimerData) : Prop :=
  (alarmCount timer = 0 \/ alarmCount timer = 1 \/ alarmCount timer = 2) /\
  (alarmCount timer = 2 -> isActive timer = false).

End Statements.
Import Statements.

(** ** Further notions used to state properties of the code *)

Module Notions.

(** Text made of white space only (the empty text included). *)
Fixpoint allSpaces (s : string) : bool :=
  match s with
  | EmptyString => true
  | String c rest => isSpace c && allSpaces rest
  end.

(** An outcome that carries no usable text: a failure, or a payload
    whose text is blank. *)
Definition blankOutcome (o : Outcome) : Prop :=
  match o with
  | Text content => allSpaces content = true
  | _ => True
  end.

(** The prompt that [callHuggingFaceAPI] sends, and strips from the
    generated text. *)
Definition huggingFacePrompt (message : string) : string :=
  "Human: " +:+ message +:+ newline +:+ "AURA:".

(** The three shapes a timer record takes during its life. *)
Definition timerShape (timer : TimerData) : Prop :=
  duration timer = 2400000 /\ mode timer = "work" /\
  ((alarmCount timer = 0 /\ sessionNumber timer = 1 /\ isActive timer = true) \/
   (alarmCount timer = 1 /\ sessionNumber timer = 2 /\ isActive timer = true) \/
   (alarmCount timer = 2 /\ sessionNumber timer = 2 /\ isActive timer = false)).

(** The status tags [checkTimerStatus] can answer with. *)
Definition timerStatuses : list string :=
  ["no_active_timer"; "active"; "session_complete"; "ai_clone_activated"].

(** The status tags [handleSpecialCommands] can answer with. *)
Definition specialStatuses : list string :=
  ["timer_started"] ++ timerStatuses ++
  ["safe_mode_active"; "clone_activated"; "advanced_clone_active";
   "scan_mode_ready"; "multi_mode_active"].

(** The trigger test of the voice route. *)
Definition asksForScan (command : string) : bool :=
  includes (toLowerCase command) "scan" || includes (toLowerCase command) "document"
  || includes (toLowerCase command) "read".


End Notions.
Import Notions.

Module PageNotions.

(** [k] firings of the countdown interval [id]. *)
Definition ticks (id : nat) (k : nat) (p : Client.Page) : Client.Page :=
  Nat.iter k (Client.countdownTick id) p.

(** The "mm:ss" text that [updateTimerDisplay()] computes for a number
    of seconds. *)
Definition clockText (seconds : Z) : string :=
  padStart2 (toString (seconds / 60)) +:+ ":" +:+ padStart2 (toString (Z.rem seconds 60)).

(** The identifiers of the live countdown intervals were handed out
    before: they are below the next identifier. *)
Definition freshIds (p : Client.Page) : Prop :=
  Forall (fun i => (i < Client.nextId p)%nat) (Client.countdowns p).

(** A page before any use, for examples: the initial [AuraState], no
    timers, empty lists. *)
Definition blankPage : Client.Page :=
  {| Client.aura := Client.initialState true;
     Client.countdowns := []; Client.simulations := []; Client.pending := [];
     Client.nextId := 1;
     Client.timerDisplay := "40:00"; Client.sessionLabel := "Session 0";
     Client.alarmLabel := "0/2"; Client.modeLabel := Some "Normal Mode";
     Client.cloneBtnDisabled := true; Client.cloneStatusText := "Standby";
     Client.activities := []; Client.chat := []; Client.spoken := [] |}.

(** The text of the last chat message. *)
Definition lastChat (p : Client.Page) : option (string * string) :=
  last (Client.chat p).

End PageNotions.
Import PageNotions.

(** ** Credentials in the environment, and requests as they arrive *)

Module Requests.

(** The environment variable from which [API_KEYS] takes the credential
    of a provider. *)
Definition credentialVariable (name : string) : option string :=
  if String.eqb name "groq" then Some "GROQ_API_KEY"
  else if String.eqb name "openai" then Some "OPENAI_API_KEY"
  else if String.eqb name "gemini" then Some "GEMINI_API_KEY"
  else if String.eqb name "huggingface" then Some "HUGGINGFACE_TOKEN"
  else None.

(** A credential is present for a provider: the environment holds a
    non-empty value in the variable of that provider. *)
Definition configured (env : gmap string string) (name : string) : bool :=
  match credentialVariable name with
  | Some variable => truthy (env !! variable)
  | None => false
  end.

(** The credential rule as the specification words it, for a process
    started in environment [env]: every outbound call goes to a provider
    for which a credential is present. *)
Definition callsOnlyConfigured (env : gmap string string) (net : Network)
    (timeString message : string) (st : AiApis) : Prop :=
  Forall (fun c => configured env (api c) = true)
         (calls (getAIResponse (API_KEYS env) net timeString message st)).

(** [command.toLowerCase()] on what the request body holds under
    [command], absent or any JSON value: only a string has the method. *)
Definition commandText (command : option Value) : Completion string :=
  match command with
  | Some (Str text) => Returned text
  | None | Some Null =>
      Thrown "TypeError: Cannot read properties of undefined (reading 'toLowerCase')"
  | Some _ => Thrown "TypeError: command.toLowerCase is not a function"
  end.

(** [handleSpecialCommands(command, userId)] on such a [command]. *)
Definition handleSpecialCommandsOn (now now' roll : Z) (command : option Value)
    (userId : string) (activeTimers : gmap string TimerData)
  : Completion (option Value) * gmap string TimerData :=
  match commandText command with
  | Thrown e => (Thrown e, activeTimers)
  | Returned text => handleSpecialCommands now now' roll text userId activeTimers
  end.


(** The [POST /api/voice/process] handler on a request body whose
    [command] is absent or any JSON value; it has no [try] either. *)
Definition voiceRoute (keys : gmap string string) (net : Network)
    (timeString isoTimestamp : string) (command : option Value) (srv : Server)
  : Completion Value * Server :=
  match commandText command with
  | Thrown e => (Thrown e, srv)
  | Returned text => voiceProcess keys net timeString isoTimestamp text srv
  end.

End Requests.
Import Requests.

(** ** Checks of the string primitives on concrete text *)

Example toLowerCase_ex : toLowerCase "I am STRESSED" = "i am stressed".
Proof. reflexivity. Qed.

Example includes_ex : includes "machine" "hi" = true /\ includes "hello" "hi" = false.
Proof. split; reflexivity. Qed.

Example trim_ex : trim "  ok then  " = "ok then".
Proof. reflexivity. Qed.

Example toString_ex : padStart2 (toString 7) = "07" /\ toString 39 = "39".
Proof. split; reflexivity. Qed.

Example replace_ex :
  replace "Human: hey AURA: hello" "Human: hey" EmptyString = " AURA: hello".
Proof. reflexivity. Qed.

(** ** The response orchestrator: auxiliary facts *)

Section OrchestratorFacts.

Variable keys : gmap string string.
Variable net : Network.
Variables timeString message : string.

Lemma fallback_reply_nonempty :
  getFallbackResponse timeString message <> EmptyString.
Proof.
  unfold getFallbackResponse, fallbacks. cbn [scanFallbacks].
  repeat (match goal with
          | |- context [includes ?s ?k] => destruct (includes s k)
          end; [discriminate|]).
  discriminate.
Qed.

Lemma providers_known p : In p providers -> known p.
Proof.
  unfold providers, known. cbn.
  intros [<-|[<-|[<-|[<-|[]]]]]; cbn; eauto.
Qed.

Lemma backup_known : Forall known (backup AI_APIS).
Proof. repeat constructor; unfold known; cbn; eauto. Qed.

(** The loop over the backup list always returns non-empty text. *)
Lemma tryBackups_value rest : forall st k,
  Forall known rest ->
  exists text, value (tryBackups keys net timeString message st k rest) = Returned text
               /\ text <> EmptyString.
Proof.
  induction rest as [|b rest IH]; intros st k Hk; cbn.
  - eexists; split; [reflexivity | apply fallback_reply_nonempty].
  - inversion Hk as [|? ? [method Hm] Hk']; subst. rewrite Hm.
    destruct (hasCredential keys b); [|auto].
    destruct (method (net k b) message) as [[|c text]|]; cbn; auto.
    eexists; split; [reflexivity | discriminate].
Qed.

(** Where the loop leaves the configuration object. *)
Lemma tryBackups_apis rest : forall st k,
  apis (tryBackups keys net timeString message st k rest) = st \/
  exists b, In b rest /\
            apis (tryBackups keys net timeString message st k rest) = switchTo st b.
Proof.
  induction rest as [|b rest IH]; intros st k; cbn; [auto|].
  assert (Hrec : forall k',
    apis (tryBackups keys net timeString message st k' rest) = st \/
    exists b', (b = b' \/ In b' rest) /\
      apis (tryBackups keys net timeString message st k' rest) = switchTo st b').
  { intros k'. destruct (IH st k') as [H|[b' [Hin H]]]; eauto. }
  destruct (hasCredential keys b); [|apply Hrec].
  destruct (apiMethods b) as [method|]; cbn; [|auto].
  destruct (method (net k b) message) as [[|c text]|]; cbn; eauto.
Qed.

(** Every call of the loop is a fallback call to a provider that has a
    credential. *)
Lemma tryBackups_calls rest : forall st k,
  Forall (fun c => role c = Fallback /\ hasCredential keys (api c) = true)
         (calls (tryBackups keys net timeString message st k rest)).
Proof.
  induction rest as [|b rest IH]; intros st k; cbn; [constructor|].
  destruct (hasCredential keys b) eqn:Hb; [|apply IH].
  destruct (apiMethods b) as [method|]; cbn; [|constructor].
  constructor; [cbn; auto|].
  destruct (method (net k b) message) as [[|c text]|]; cbn; auto.
Qed.

(** The loop calls the credentialed entries of the list in list order,
    and stops somewhere along that list. *)
Lemma tryBackups_order rest : forall st k,
  exists tail, List.filter (hasCredential keys) rest
               = map api (calls (tryBackups keys net timeString message st k rest)) ++ tail.
Proof.
  induction rest as [|b rest IH]; intros st k; cbn; [exists []; reflexivity|].
  destruct (hasCredential keys b) eqn:Hb; [|apply IH].
  destruct (apiMethods b) as [method|]; cbn; [|eexists; reflexivity].
  destruct (method (net k b) message) as [[|c text]|]; cbn;
    try (destruct (IH st (S k)) as [tail ->]; exists tail; reflexivity).
  eexists; reflexivity.
Qed.

(** When no call of the loop succeeds, the loop went through the whole
    list, changed nothing and returned the local fallback reply. *)
Lemma tryBackups_all_failed rest : forall st k,
  Forall known rest ->
  Forall (fun c => succeeded c = false)
         (calls (tryBackups keys net timeString message st k rest)) ->
  map api (calls (tryBackups keys net timeString message st k rest))
    = List.filter (hasCredential keys) rest /\
  value (tryBackups keys net timeString message st k rest)
    = Returned (getFallbackResponse timeString message) /\
  apis (tryBackups keys net timeString message st k rest) = st.
Proof.
  induction rest as [|b rest IH]; intros st k Hk; cbn; [auto|].
  inversion Hk as [|? ? [method Hm] Hk']; subst. rewrite Hm.
  destruct (hasCredential keys b) eqn:Hb; [|apply IH; assumption].
  destruct (method (net k b) message) as [[|c text]|] eqn:Hr; cbn;
    intros Hall; inversion Hall as [|? ? Hc Hrest]; subst;
    try (destruct (IH st (S k) Hk' Hrest) as (-> & -> & ->); auto).
  unfold succeeded in Hc; cbn in Hc. discriminate.
Qed.

(** A successful call of the loop is its last call; the loop returns the
    text of that call and makes its provider the preferred one. *)
Lemma tryBackups_success rest : forall st k before c after,
  calls (tryBackups keys net timeString message st k rest) = before ++ c :: after ->
  succeeded c = true ->
  after = [] /\
  apis (tryBackups keys net timeString message st k rest) = switchTo st (api c) /\
  exists text, response c = Some text /\
    value (tryBackups keys net timeString message st k rest) = Returned text.
Proof.
  induction rest as [|b rest IH]; intros st k before c after; cbn.
  - intros H. destruct before; discriminate.
  - destruct (hasCredential keys b) eqn:Hb; [|apply IH].
    destruct (apiMethods b) as [method|]; cbn;
      [|intros H; destruct before; discriminate].
    destruct (method (net k b) message) as [[|ch text]|] eqn:Hr; cbn; intros H Hc.
    + destruct before as [|c0 before]; cbn in H; inversion H; subst.
      * unfold succeeded in Hc; cbn in Hc. discriminate.
      * eapply IH; eassumption.
    + destruct before as [|c0 before]; cbn in H; inversion H; subst.
      * cbn. split; [reflexivity|]. split; [reflexivity|]. eauto.
      * destruct before; discriminate.
    + destruct before as [|c0 before]; cbn in H; inversion H; subst.
      * unfold succeeded in Hc; cbn in Hc. discriminate.
      * eapply IH; eassumption.
Qed.

(** [getAIResponse] is either the answer of the preferred provider, or
    the loop over the backup list, possibly after one failed preferred
    call. *)
Lemma getAIResponse_cases st :
  known (currentActive st) ->
  (preferredSucceeds keys net message st /\
   apis (getAIResponse keys net timeString message st) = st /\
   exists text, text <> EmptyString /\
     value (getAIResponse keys net timeString message st) = Returned text /\
     calls (getAIResponse keys net timeString message st)
       = [ {| role := Preferred; api := currentActive st; response := Some text |} ])
  \/
  (~ preferredSucceeds keys net message st /\
   exists k pre,
     (pre = [] \/ exists failed, pre = [failed] /\ role failed = Preferred /\
                    api failed = currentActive st /\ succeeded failed = false /\
                    hasCredential keys (currentActive st) = true) /\
     calls (getAIResponse keys net timeString message st)
       = pre ++ calls (tryBackups keys net timeString message st k (backup st)) /\
     value (getAIResponse keys net timeString message st)
       = value (tryBackups keys net timeString message st k (backup st)) /\
     apis (getAIResponse keys net timeString message st)
       = apis (tryBackups keys net timeString message st k (backup st))).
Proof.
  intros [method Hm]. unfold getAIResponse, preferredSucceeds. rewrite Hm.
  destruct (hasCredential keys (currentActive st)) eqn:Hc.
  - destruct (method (net 0%nat (currentActive st)) message) as [[|ch text]|] eqn:Hr; cbn.
    + right. split.
      { intros (_ & m' & Hm' & Ht). inversion Hm'; subst. rewrite Hr in Ht. discriminate. }
      exists 1%nat,
        [ {| role := Preferred; api := currentActive st; response := Some EmptyString |} ].
      split; [right; eexists; split; [reflexivity|cbn; auto 10]|cbn; auto].
    + left. split; [split; [reflexivity|]; exists method; rewrite Hr; auto|].
      split; [reflexivity|]. eexists. split; [|split; reflexivity]. discriminate.
    + right. split.
      { intros (_ & m' & Hm' & Ht). inversion Hm'; subst. rewrite Hr in Ht. discriminate. }
      exists 1%nat,
        [ {| role := Preferred; api := currentActive st; response := None |} ].
      split; [right; eexists; split; [reflexivity|cbn; auto 10]|cbn; auto].
  - right. split; [intros [? _]; discriminate|].
    exists 0%nat, []. cbn. auto.
Qed.

End OrchestratorFacts.

(** The invariant of the configuration object. *)
Lemma reachable_invariant st :
  reachable st ->
  primary st = "groq" /\ backup st = ["openai"; "huggingface"; "gemini"] /\
  In (currentActive st) providers.
Proof.
  induction 1 as [|keys' net' ts msg st Hst (Hp & Hb & Hc)].
  - cbn. auto 10.
  - assert (Hk : known (currentActive st)) by (apply providers_known; exact Hc).
    assert (Ha : apis (getAIResponse keys' net' ts msg st) = st \/
                 exists b, In b (backup st) /\
                   apis (getAIResponse keys' net' ts msg st) = switchTo st b).
    { destruct Hk as [method Hm]. unfold getAIResponse. rewrite Hm.
      destruct (hasCredential keys' (currentActive st)); [|apply tryBackups_apis].
      destruct (method (net' 0%nat (currentActive st)) msg) as [[|ch text]|]; cbn;
        auto using tryBackups_apis. }
    destruct Ha as [->|(b & Hin & ->)]; [auto|]. cbn.
    split; [exact Hp|]. split; [exact Hb|].
    rewrite Hb in Hin. cbn in Hin. unfold providers. cbn.
    destruct Hin as [<-|[<-|[<-|[]]]]; auto.
Qed.

Lemma reachable_backup_known st : reachable st -> Forall known (backup st).
Proof.
  intros H. destruct (reachable_invariant st H) as (_ & -> & _). apply backup_known.
Qed.

Lemma reachable_current_known st : reachable st -> known (currentActive st).
Proof.
  intros H. apply providers_known. apply (reachable_invariant st H).
Qed.

(** With the environment as the only source of credentials, the
    HuggingFace entry of [API_KEYS] is never empty: a missing variable is
    replaced by a placeholder text, which the credential test accepts. *)
Lemma huggingface_entry_never_empty env :
  hasCredential (API_KEYS env) "huggingface" = true.
Proof.
  unfold hasCredential, API_KEYS.
  change (toUpperCase "huggingface" +:+ "_API_KEY") with "HUGGINGFACE_API_KEY".
  change (toUpperCase "huggingface" +:+ "_TOKEN") with "HUGGINGFACE_TOKEN".
  rewrite !lookup_insert_ne by discriminate.
  rewrite lookup_empty, lookup_insert_eq.
  unfold envOr. cbn. destruct (env !! "HUGGINGFACE_TOKEN") as [[|c s]|]; reflexivity.
Qed.

(** ** The response orchestrator: the claims *)

(** C1: for every message, every credential table and every outcome of
    the outbound calls (text, empty text, transport error, non-OK status,
    malformed payload), [getAIResponse] run from a configuration the
    process can reach completes by returning a string, never by
    throwing, and the string is not empty. *)
Theorem getAIResponse_always_returns_text keys net timeString message st :
  reachable st ->
  exists text,
    value (getAIResponse keys net timeString message st) = Returned text /\
    text <> EmptyString.
Proof.
  intros Hst.
  destruct (getAIResponse_cases keys net timeString message st
              (reachable_current_known st Hst))
    as [(_ & _ & text & Hne & Hv & _) | (_ & k & pre & _ & _ & Hv & _)].
  - exists text. auto.
  - rewrite Hv. apply tryBackups_value. apply reachable_backup_known, Hst.
Qed.

Lemma getAIResponse_always_returns_text_witness :
  exists text,
    value (getAIResponse (API_KEYS ∅) (fun _ _ => TransportError)
                         "10:15:00" "hello there" AI_APIS) = Returned text /\
    text <> EmptyString.
Proof.
  apply (getAIResponse_always_returns_text (API_KEYS ∅) (fun _ _ => TransportError)
           "10:15:00" "hello there" AI_APIS).
  apply reachable_init.
Defined.

(** The guard of [getAIResponse]: whatever the message, the key table
    and the configuration, every outbound call goes to a provider whose
    entry in the table passes the test of the guard. This is a fact
    about the table [API_KEYS], not about what the environment
    provided. *)
Lemma getAIResponse_calls_only_credentialed keys net timeString message st :
  Forall (fun c => hasCredential keys (api c) = true)
         (calls (getAIResponse keys net timeString message st)).
Proof.
  assert (Hloop : forall k,
    Forall (fun c => hasCredential keys (api c) = true)
           (calls (tryBackups keys net timeString message st k (backup st)))).
  { intros k. eapply Forall_impl; [apply tryBackups_calls|].
    intros c [_ H]. exact H. }
  unfold getAIResponse.
  destruct (hasCredential keys (currentActive st)) eqn:Hc; [|apply Hloop].
  destruct (apiMethods (currentActive st)) as [method|]; cbn; [|constructor].
  constructor; [exact Hc|].
  destruct (method (net 0%nat (currentActive st)) message) as [[|ch text]|]; cbn;
    try apply Hloop.
  constructor.
Qed.

(** The lemma is not about empty logs: with only an OpenAI key in the
    environment and every request failing, OpenAI and HuggingFace (the
    placeholder token) are called, Groq and Gemini are not. *)
Example calls_with_openai_key_only :
  map api (calls (getAIResponse (API_KEYS {[ "OPENAI_API_KEY" := "sk-test" ]})
                                (fun _ _ => HttpNotOk) "10:15:00" "hello" AI_APIS))
  = ["openai"; "huggingface"].
Proof. vm_compute. reflexivity. Qed.







(** The table is scanned in its own order: a message about machine
    learning already matches the earlier keyword "hi" (inside
    "machine"), and gets that reply. *)
Example fallback_machine_learning :
  getFallbackResponse "10:15:00" "What is machine learning?"
  = "Hi there! Ready to boost your productivity and learning?".
Proof. reflexivity. Qed.






(** ** The work-session timer: the claims *)

(** A poll of a running session inside its window reports [active] and
    leaves the map as it is. *)
Lemma checkTimerStatus_running now now' userId (activeTimers : gmap string TimerData) timer :
  activeTimers !! userId = Some timer ->
  isActive timer = true ->
  now - startTime timer < duration timer ->
  exists r, checkTimerStatus now now' userId activeTimers = (Returned r, activeTimers) /\
            get "status" r = Some (Str "active").
Proof.
  intros Hget Hact Hwin. unfold checkTimerStatus. rewrite Hget, Hact. cbn [negb].
  destruct (Z.max 0 (duration timer - (now - startTime timer)) <=? 0) eqn:Hrem.
  - apply Z.leb_le in Hrem. lia.
  - eexists. split; reflexivity.
Qed.

(** A poll of a running session whose window has elapsed is a
    completion. *)
Lemma checkTimerStatus_elapsed now now' userId (activeTimers : gmap string TimerData) timer :
  activeTimers !! userId = Some timer ->
  isActive timer = true ->
  duration timer <= now - startTime timer ->
  checkTimerStatus now now' userId activeTimers
  = handleTimerComplete now' userId activeTimers.
Proof.
  intros Hget Hact Hwin. unfold checkTimerStatus. rewrite Hget, Hact. cbn [negb].
  destruct (Z.max 0 (duration timer - (now - startTime timer)) <=? 0) eqn:Hrem.
  - reflexivity.
  - apply Z.leb_gt in Hrem. lia.
Qed.

(** C9: for a user without a timer record, or whose record is not
    active, [checkTimerStatus] returns the [no_active_timer] object,
    which carries a suggestion, and the [activeTimers] map is exactly
    what it was. *)
Theorem checkTimerStatus_without_active_timer now now' userId
    (activeTimers : gmap string TimerData) :
  activeTimers !! userId = None \/
  (exists timer, activeTimers !! userId = Some timer /\ isActive timer = false) ->
  checkTimerStatus now now' userId activeTimers = (Returned noActiveTimer, activeTimers) /\
  get "status" noActiveTimer = Some (Str "no_active_timer") /\
  exists suggestion, get "suggestion" noActiveTimer = Some (Str suggestion) /\
                     suggestion <> EmptyString.
Proof.
  intros Hcase. split.
  - unfold checkTimerStatus.
    destruct Hcase as [->|(timer & -> & ->)]; reflexivity.
  - split; [reflexivity|]. eexists. split; [reflexivity|]. discriminate.
Qed.

Lemma checkTimerStatus_without_active_timer_witness :
  checkTimerStatus 5000 5000 "default" ∅ = (Returned noActiveTimer, ∅).
Proof.
  apply (checkTimerStatus_without_active_timer 5000 5000 "default" ∅).
  left. reflexivity.
Defined.

(** C4: after [startWorkTimer] for a user at instant [t0], polls made
    before 2400 seconds have elapsed leave the record alone; the first
    poll at which 2400 seconds have elapsed returns [session_complete]
    with alarm count 1 and restarts the record at the instant [t1'] read
    on completion; the next poll at which a further 2400 seconds have
    elapsed returns [ai_clone_activated] with alarm count 2 and makes the
    record inactive. *)
Theorem two_elapsed_periods_activate_clone (activeTimers : gmap string TimerData)
    userId t0 t1 t1' t2 t2' :
  2400 * 1000 <= t1 - t0 ->
  2400 * 1000 <= t2 - t1' ->
  exists r1 timers1 r2 timers2,
    (forall t t', t - t0 < 2400 * 1000 ->
       (checkTimerStatus t t' userId (startWorkTimer t0 userId activeTimers).2).2
       = (startWorkTimer t0 userId activeTimers).2) /\
    checkTimerStatus t1 t1' userId (startWorkTimer t0 userId activeTimers).2
      = (Returned r1, timers1) /\
    get "status" r1 = Some (Str "session_complete") /\
    get "alarmCount" r1 = Some (Num 1) /\
    (exists timer, timers1 !! userId = Some timer /\ startTime timer = t1' /\
                   alarmCount timer = 1 /\ isActive timer = true) /\
    (forall t t', t - t1' < 2400 * 1000 ->
       (checkTimerStatus t t' userId timers1).2 = timers1) /\
    checkTimerStatus t2 t2' userId timers1 = (Returned r2, timers2) /\
    get "status" r2 = Some (Str "ai_clone_activated") /\
    get "alarmCount" r2 = Some (Num 2) /\
    (exists timer, timers2 !! userId = Some timer /\
                   alarmCount timer = 2 /\ isActive timer = false).
Proof.
  intros H1 H2.
  set (fresh := {| startTime := t0; duration := 40 * 60 * 1000; alarmCount := 0;
                   isActive := true; mode := "work"; sessionNumber := 1 |}).
  set (second := setStartTime t1' (setSessionNumber 2 (setAlarmCount 1 fresh))).
  assert (Hstart : (startWorkTimer t0 userId activeTimers).2 = <[userId := fresh]> activeTimers)
    by reflexivity.
  assert (Hget0 : (<[userId := fresh]> activeTimers) !! userId = Some fresh)
    by apply lookup_insert_eq.
  assert (Hget1 : (<[userId := second]> (<[userId := fresh]> activeTimers)) !! userId
                  = Some second) by apply lookup_insert_eq.
  rewrite Hstart.
  eexists _, (<[userId := second]> (<[userId := fresh]> activeTimers)), _, _.
  split.
  { intros t t' Ht.
    destruct (checkTimerStatus_running t t' userId _ fresh Hget0 eq_refl) as (r & -> & _);
      [cbn; lia | reflexivity]. }
  split.
  { rewrite (checkTimerStatus_elapsed t1 t1' userId _ fresh Hget0 eq_refl) by (cbn; lia).
    unfold handleTimerComplete. rewrite Hget0. reflexivity. }
  split; [reflexivity|]. split; [reflexivity|].
  split; [exists second; auto|].
  split.
  { intros t t' Ht.
    destruct (checkTimerStatus_running t t' userId _ second Hget1 eq_refl) as (r & -> & _);
      [cbn; lia | reflexivity]. }
  split.
  { rewrite (checkTimerStatus_elapsed t2 t2' userId _ second Hget1 eq_refl) by (cbn; lia).
    unfold handleTimerComplete. rewrite Hget1. reflexivity. }
  split; [reflexivity|]. split; [reflexivity|].
  eexists. split; [apply lookup_insert_eq|]. split; reflexivity.
Qed.

Lemma two_elapsed_periods_activate_clone_witness :
  exists r1 timers1 r2 timers2,
    checkTimerStatus 2400000 2400003 "default" (startWorkTimer 0 "default" ∅).2
      = (Returned r1, timers1) /\
    get "status" r1 = Some (Str "session_complete") /\
    checkTimerStatus 4800003 4800004 "default" timers1 = (Returned r2, timers2) /\
    get "status" r2 = Some (Str "ai_clone_activated").
Proof.
  destruct (two_elapsed_periods_activate_clone ∅ "default" 0 2400000 2400003 4800003 4800004)
    as (r1 & timers1 & r2 & timers2 & _ & Hp1 & Hs1 & _ & _ & _ & Hp2 & Hs2 & _).
  - lia.
  - lia.
  - exists r1, timers1, r2, timers2. auto.
Defined.

(** C5, as the code has it: [startWorkTimer] installs a fresh record for
    the user whatever record the user had, also while a session of that
    user is active, so a second start restarts the running session; the
    records of all other users are left as they are. *)
Theorem startWorkTimer_installs_fresh_record now userId
    (activeTimers : gmap string TimerData) :
  (startWorkTimer now userId activeTimers).2 !! userId
    = Some {| startTime := now; duration := 2400000; alarmCount := 0;
              isActive := true; mode := "work"; sessionNumber := 1 |} /\
  get "status" (startWorkTimer now userId activeTimers).1 = Some (Str "timer_started") /\
  forall other, other <> userId ->
    (startWorkTimer now userId activeTimers).2 !! other = activeTimers !! other.
Proof.
  split; [apply lookup_insert_eq|]. split; [reflexivity|].
  intros other Hne. apply lookup_insert_ne. congruence.
Qed.

Lemma startWorkTimer_installs_fresh_record_witness :
  (startWorkTimer 1000 "bob" (startWorkTimer 0 "alice" ∅).2).2 !! "alice"
  = (startWorkTimer 0 "alice" ∅).2 !! "alice".
Proof.
  apply (startWorkTimer_installs_fresh_record 1000 "bob" (startWorkTimer 0 "alice" ∅).2).
  discriminate.
Defined.

(** C5, as worded, fails: one second into an active session, a second
    start moves [startTime] from 0 to 1000. *)
Lemma second_start_restarts_running_session :
  ~ startKeepsRunningSession 1000 "default" (startWorkTimer 0 "default" ∅).2.
Proof.
  intros H.
  destruct (H {| startTime := 0; duration := 2400000; alarmCount := 0;
                 isActive := true; mode := "work"; sessionNumber := 1 |})
    as (timer' & Hget & Hstart).
  - apply lookup_insert_eq.
  - reflexivity.
  - cbn. lia.
  - cbn in Hget. rewrite lookup_insert_eq in Hget. inversion Hget; subst.
    cbn in Hstart. discriminate.
Qed.

(** One timer operation preserves the invariant of every record. *)
Lemma applyOp_invariant (activeTimers : gmap string TimerData) op :
  map_Forall (fun _ timer => timerInvariant timer) activeTimers ->
  map_Forall (fun _ timer => timerInvariant timer) (applyOp activeTimers op).
Proof.
  intros Hinv. destruct op as [now userId | now now' userId]; cbn.
  - apply map_Forall_insert_2; [|exact Hinv].
    split; cbn; [auto | discriminate].
  - unfold checkTimerStatus.
    destruct (activeTimers !! userId) as [timer|] eqn:Hget; [|exact Hinv].
    destruct (isActive timer) eqn:Hact; cbn [negb]; [|exact Hinv].
    destruct (Z.max 0 (duration timer - (now - startTime timer)) <=? 0); [|exact Hinv].
    unfold handleTimerComplete. rewrite Hget.
    destruct (Hinv userId timer Hget) as [Hrange Hdone].
    destruct Hrange as [H0|[H1|H2]];
      [| | rewrite (Hdone H2) in Hact; discriminate].
    + cbn. rewrite H0. cbn. apply map_Forall_insert_2; [|exact Hinv].
      split; cbn; [auto | discriminate].
    + cbn. rewrite H1. cbn. apply map_Forall_insert_2; [|exact Hinv].
      split; cbn; [auto | reflexivity].
Qed.

Lemma runOps_invariant ops : forall activeTimers : gmap string TimerData,
  map_Forall (fun _ timer => timerInvariant timer) activeTimers ->
  map_Forall (fun _ timer => timerInvariant timer) (runOps ops activeTimers).
Proof.
  induction ops as [|op ops IH]; intros activeTimers Hinv; cbn; [exact Hinv|].
  apply IH, applyOp_invariant, Hinv.
Qed.

(** A poll never touches a record that is not active. *)
Lemma poll_keeps_inactive_record (activeTimers : gmap string TimerData) op userId timer :
  isPoll op ->
  activeTimers !! userId = Some timer ->
  isActive timer = false ->
  applyOp activeTimers op !! userId = Some timer.
Proof.
  destruct op as [now other | now now' other]; cbn; [intros []|].
  intros _ Hget Hact. unfold checkTimerStatus.
  destruct (decide (other = userId)) as [->|Hne].
  - rewrite Hget, Hact. exact Hget.
  - destruct (activeTimers !! other) as [t|] eqn:Hother; [|exact Hget].
    destruct (negb (isActive t)); [exact Hget|].
    destruct (Z.max 0 (duration t - (now - startTime t)) <=? 0); [|exact Hget].
    unfold handleTimerComplete. rewrite Hother.
    destruct (2 <=? alarmCount (setAlarmCount (alarmCount t + 1) t)); cbn;
      rewrite lookup_insert_ne by exact Hne; exact Hget.
Qed.

Lemma polls_keep_inactive_record polls : forall (activeTimers : gmap string TimerData) userId timer,
  Forall isPoll polls ->
  activeTimers !! userId = Some timer ->
  isActive timer = false ->
  runOps polls activeTimers !! userId = Some timer.
Proof.
  induction polls as [|op polls IH]; intros activeTimers userId timer Hp Hget Hact; cbn;
    [exact Hget|].
  inversion Hp; subst.
  apply IH; [assumption | apply poll_keeps_inactive_record; assumption | assumption].
Qed.

(** C10: every record of a map produced from the empty map by any
    sequence of [startWorkTimer] and [checkTimerStatus] calls, for any
    users and instants, has [alarmCount] 0, 1 or 2, and has it equal to 2
    only when it is inactive. Hence a poll that reports
    [ai_clone_activated] reports alarm count 2, and after it no sequence
    of polls changes that record: its alarm count stays 2. *)
Theorem timer_records_keep_invariant ops :
  map_Forall (fun _ timer => timerInvariant timer) (runOps ops ∅) /\
  forall now now' userId r timers',
    checkTimerStatus now now' userId (runOps ops ∅) = (Returned r, timers') ->
    get "status" r = Some (Str "ai_clone_activated") ->
    get "alarmCount" r = Some (Num 2) /\
    forall polls, Forall isPoll polls ->
      exists timer, runOps polls timers' !! userId = Some timer /\
                    alarmCount timer = 2 /\ isActive timer = false.
Proof.
  assert (Hinv : map_Forall (fun _ timer => timerInvariant timer) (runOps ops ∅))
    by (apply runOps_invariant, map_Forall_empty).
  split; [exact Hinv|].
  intros now now' userId r timers'. unfold checkTimerStatus.
  destruct (runOps ops ∅ !! userId) as [timer|] eqn:Hget;
    [|intros Hr; inversion Hr; subst; discriminate].
  destruct (isActive timer) eqn:Hact; cbn [negb];
    [|intros Hr; inversion Hr; subst; discriminate].
  destruct (Z.max 0 (duration timer - (now - startTime timer)) <=? 0);
    [|intros Hr; inversion Hr; subst; discriminate].
  unfold handleTimerComplete. rewrite Hget.
  destruct (Hinv userId timer Hget) as [Hrange Hdone].
  destruct Hrange as [H0|[H1|H2]];
    [| | rewrite (Hdone H2) in Hact; discriminate].
  - cbn. rewrite H0. cbn. intros Hr; inversion Hr; subst; discriminate.
  - cbn. rewrite H1. cbn. intros Hr _. inversion Hr; subst. cbn.
    split; [reflexivity|]. intros polls Hpolls. eexists. split.
    + apply polls_keep_inactive_record; [exact Hpolls | apply lookup_insert_eq | reflexivity].
    + cbn. auto.
Qed.

Lemma timer_records_keep_invariant_witness :
  exists timer,
    runOps [Poll 9000000 9000000 "default"; Poll 9900000 9900000 "default"]
           (checkTimerStatus 4800000 4800000 "default"
              (runOps [Start 0 "default"; Poll 2400000 2400000 "default"] ∅)).2
      !! "default" = Some timer /\
    alarmCount timer = 2 /\ isActive timer = false.
Proof.
  destruct (timer_records_keep_invariant [Start 0 "default"; Poll 2400000 2400000 "default"])
    as [_ Hclone].
  destruct (checkTimerStatus 4800000 4800000 "default"
              (runOps [Start 0 "default"; Poll 2400000 2400000 "default"] ∅))
    as [[r|e] timers'] eqn:Hpoll; [|vm_compute in Hpoll; discriminate].
  destruct (Hclone 4800000 4800000 "default" r timers' Hpoll) as [_ Hpolls].
  - vm_compute in Hpoll. inversion Hpoll; subst. reflexivity.
  - apply Hpolls. repeat constructor.
Defined.

(** ** Command routing: the claims *)

(** C6: [handleSpecialCommands] does what the ordered trigger table
    says: the lower-cased command is tested against the session-start,
    timer-status, stress, clone, scan and mode-switch keyword sets in
    that order and the first set with a keyword in the command decides;
    a command without any trigger keyword is answered by
    [getAIResponse], and a command with one never reaches it. In
    particular "I am stressed and overwhelmed" is answered with
    [safe_mode_active] whatever the timer map holds, and the map is not
    touched. *)
Theorem handleSpecialCommands_first_match_wins :
  (forall now now' roll command userId (timers : gmap string TimerData),
     handleSpecialCommands now now' roll command userId timers
     = dispatch now now' roll (firstMatch (toLowerCase command))
                (toLowerCase command) userId timers) /\
  (forall now now' roll userId (timers : gmap string TimerData),
     exists r,
       handleSpecialCommands now now' roll "I am stressed and overwhelmed" userId timers
       = (Returned (Some r), timers) /\
       get "status" r = Some (Str "safe_mode_active")) /\
  (forall now now' roll keys net timeString isoTimestamp command userId srv,
     firstMatch (toLowerCase command) = None ->
     forall text,
       value (getAIResponse keys net timeString command (aiApis srv)) = Returned text ->
       auraProcess now now' roll keys net timeString isoTimestamp command userId srv
       = (Returned (Obj [ ("success", Boolean true);
                          ("response", Str text);
                          ("api_used",
                           Str (currentActive
                                  (apis (getAIResponse keys net timeString command (aiApis srv)))));
                          ("timestamp", Str isoTimestamp);
                          ("commandType", Str "ai_conversation") ]),
          {| activeTimers := activeTimers srv;
             aiApis := apis (getAIResponse keys net timeString command (aiApis srv)) |})) /\
  (forall now now' roll keys net timeString isoTimestamp command userId srv,
     firstMatch (toLowerCase command) <> None ->
     aiApis (auraProcess now now' roll keys net timeString isoTimestamp command userId srv).2
     = aiApis srv).
Proof.
  assert (Hroute : forall now now' roll command userId (timers : gmap string TimerData),
     handleSpecialCommands now now' roll command userId timers
     = dispatch now now' roll (firstMatch (toLowerCase command))
                (toLowerCase command) userId timers).
  { intros. unfold handleSpecialCommands, firstMatch, triggers, matchesAny.
    cbn [List.find existsb fst snd]. rewrite !orb_false_r, !orb_assoc.
    repeat match goal with
           | |- context [if ?b then _ else _] =>
               lazymatch b with
               | context [includes _ "advanced"] => fail
               | _ => destruct b; [reflexivity|]
               end
           end.
    reflexivity. }
  split; [exact Hroute|]. split; [|split].
  - intros. eexists. split; reflexivity.
  - intros now now' roll keys net timeString isoTimestamp command userId srv Hnone text Hv.
    unfold auraProcess. rewrite Hroute, Hnone. cbn. rewrite Hv. reflexivity.
  - intros now now' roll keys net timeString isoTimestamp command userId srv Hsome.
    unfold auraProcess. rewrite Hroute.
    destruct (firstMatch (toLowerCase command)) as [[]|]; [..|contradiction]; cbn;
      try reflexivity.
    destruct (checkTimerStatus now now' (default "default" userId) (activeTimers srv))
      as [[r|e] timers]; reflexivity.
Qed.

Lemma handleSpecialCommands_first_match_wins_witness :
  exists reply srv',
    auraProcess 0 0 12 sampleKeys onlyOpenAI "10:15:00" "2025-01-01T10:15:00.000Z"
                "tell me about graphs" None
                {| activeTimers := ∅; aiApis := AI_APIS |}
    = (Returned reply, srv') /\
    get "commandType" reply = Some (Str "ai_conversation") /\
    get "response" reply = Some (Str "Happy to help.").
Proof.
  destruct handleSpecialCommands_first_match_wins as (_ & _ & Hai & _).
  eexists _, _. split.
  - apply (Hai 0 0 12 sampleKeys onlyOpenAI "10:15:00" "2025-01-01T10:15:00.000Z"
               "tell me about graphs" None {| activeTimers := ∅; aiApis := AI_APIS |}).
    + vm_compute. reflexivity.
    + vm_compute. reflexivity.
  - split; reflexivity.
Defined.

(** Order decides between overlapping triggers: a command that asks for
    the clone while mentioning stress is answered by safe mode, and one
    that starts work while stressed starts the timer. *)
Example routing_overlap :
  firstMatch (toLowerCase "I am stressed, start the clone") = Some SafeMode /\
  firstMatch (toLowerCase "Start work, I am stressed") = Some SessionStart.
Proof. split; reflexivity. Qed.

(** ** Further properties of the code *)

(** *** Facts about strings *)

Lemma append_cons (c : ascii) (a b : string) : String c a +:+ b = String c (a +:+ b).
Proof. reflexivity. Qed.

Lemma append_assoc_string (a b c : string) : (a +:+ b) +:+ c = a +:+ (b +:+ c).
Proof.
  induction a as [|ch a IH]; [reflexivity|].
  rewrite !append_cons, IH. reflexivity.
Qed.

Lemma prefix_append (k b : string) : String.prefix k (k +:+ b) = true.
Proof.
  induction k as [|ch k IH]; [destruct b; reflexivity|].
  rewrite append_cons. cbn. destruct (ascii_dec ch ch); [exact IH | contradiction].
Qed.

Lemma prefix_split (k : string) : forall s,
  String.prefix k s = true -> exists b, s = k +:+ b.
Proof.
  induction k as [|ch k IH]; intros s H; [exists s; reflexivity|].
  destruct s as [|c s]; cbn in H; [discriminate|].
  destruct (ascii_dec ch c) as [->|]; [|discriminate].
  destruct (IH s H) as [b ->]. exists b. reflexivity.
Qed.

Lemma dropChars_append (k b : string) : dropChars (String.length k) (k +:+ b) = b.
Proof. induction k as [|ch k IH]; [reflexivity | rewrite append_cons; exact IH]. Qed.

Lemma includes_empty (k : string) :
  includes EmptyString k = String.prefix k EmptyString.
Proof. cbn [includes]. apply orb_false_r. Qed.

Lemma includes_cons (c : ascii) (s k : string) :
  includes (String c s) k = String.prefix k (String c s) || includes s k.
Proof. reflexivity. Qed.

(** [s.includes(k)] holds exactly when [k] sits somewhere inside [s]. *)
Lemma includes_split (s k : string) :
  includes s k = true <-> exists a b, s = a +:+ k +:+ b.
Proof.
  split.
  - induction s as [|c s IH]; intros H.
    + rewrite includes_empty in H. destruct (prefix_split k _ H) as [b Hb].
      exists EmptyString, b. exact Hb.
    + rewrite includes_cons in H. apply orb_true_iff in H. destruct H as [H|H].
      * destruct (prefix_split k _ H) as [b Hb]. exists EmptyString, b. exact Hb.
      * destruct (IH H) as (a & b & ->). exists (String c a), b. reflexivity.
  - intros (a & b & ->). induction a as [|c a IH].
    + change (EmptyString +:+ k +:+ b) with (k +:+ b).
      destruct (k +:+ b) eqn:E.
      * rewrite includes_empty, <- E. apply prefix_append.
      * rewrite includes_cons, <- E, prefix_append. reflexivity.
    + rewrite append_cons, includes_cons, IH. apply orb_true_r.
Qed.

Lemma includes_trans (s k k' : string) :
  includes s k = true -> includes k k' = true -> includes s k' = true.
Proof.
  intros Hs Hk. apply includes_split in Hs. apply includes_split in Hk.
  destruct Hs as (a & b & ->). destruct Hk as (c & d & ->).
  apply includes_split. exists (a +:+ c), (d +:+ b).
  rewrite !append_assoc_string. reflexivity.
Qed.

Lemma trimStart_allSpaces (s : string) : allSpaces s = true -> trimStart s = EmptyString.
Proof.
  induction s as [|c s IH]; cbn; [reflexivity|].
  intros H. apply andb_true_iff in H. destruct H as [-> H]. auto.
Qed.

Lemma trim_allSpaces (s : string) : allSpaces s = true -> trim s = EmptyString.
Proof. intros H. unfold trim. rewrite (trimStart_allSpaces s H). reflexivity. Qed.

(** Blank text contains no occurrence of a pattern that starts with a
    visible character. *)
Lemma replace_allSpaces (s : string) c pattern replacement :
  isSpace c = false -> allSpaces s = true ->
  replace s (String c pattern) replacement = s.
Proof.
  intros Hc. induction s as [|ch s IH]; cbn; [reflexivity|].
  intros H. apply andb_true_iff in H. destruct H as [Hch H].
  destruct (ascii_dec c ch) as [->|_]; [congruence|].
  rewrite (IH H). reflexivity.
Qed.

Lemma replace_at_prefix (s pattern replacement : string) :
  String.prefix pattern s = true ->
  replace s pattern replacement
  = replacement +:+ dropChars (String.length pattern) s.
Proof. intros H. destruct s; cbn [replace]; rewrite H; reflexivity. Qed.

Lemma replace_without_match (s pattern replacement : string) :
  includes s pattern = false -> replace s pattern replacement = s.
Proof.
  induction s as [|c s IH]; intros H.
  - rewrite includes_empty in H. cbn [replace]. rewrite H. reflexivity.
  - rewrite includes_cons in H. apply orb_false_iff in H. destruct H as [Hp Hs].
    cbn [replace]. rewrite Hp, (IH Hs). reflexivity.
Qed.

(** *** The response orchestrator *)

(** The calls of the loop go to entries of the list it walks. *)
Lemma loop_calls_on_list keys net timeString message st k rest c :
  In c (calls (tryBackups keys net timeString message st k rest)) ->
  In (api c) rest /\ hasCredential keys (api c) = true.
Proof.
  intros Hin.
  destruct (tryBackups_order keys net timeString message rest st k) as [tail Hord].
  assert (H : In (api c) (List.filter (hasCredential keys) rest)).
  { rewrite Hord. apply in_or_app. left. apply in_map. exact Hin. }
  apply List.filter_In in H. exact H.
Qed.

Lemma backup_in_providers st b :
  reachable st -> In b (backup st) -> In b providers /\ b <> "groq".
Proof.
  intros Hst Hin. destruct (reachable_invariant st Hst) as (_ & Hb & _).
  rewrite Hb in Hin. unfold providers. cbn in *.
  destruct Hin as [<-|[<-|[<-|[]]]]; split; auto; discriminate.
Qed.

(** A successful fallback call moves the pointer to its provider, an
    entry of the backup list with a credential. *)
Lemma fallback_success_switches keys net timeString message st c :
  known (currentActive st) ->
  In c (calls (getAIResponse keys net timeString message st)) ->
  role c = Fallback -> succeeded c = true ->
  apis (getAIResponse keys net timeString message st) = switchTo st (api c) /\
  In (api c) (backup st) /\ hasCredential keys (api c) = true.
Proof.
  intros Hk Hin Hrole Hok.
  destruct (getAIResponse_cases keys net timeString message st Hk)
    as [(_ & _ & text & _ & _ & Hcalls) | (_ & k & pre & Hpre & Hcalls & _ & Ha)].
  - rewrite Hcalls in Hin. destruct Hin as [<-|[]]. discriminate.
  - rewrite Hcalls in Hin. apply in_app_or in Hin. destruct Hin as [Hin|Hin].
    + destruct Hpre as [->|(failed & -> & Hr & _)]; [destruct Hin|].
      destruct Hin as [<-|[]]. congruence.
    + split; [|apply (loop_calls_on_list _ _ _ _ _ _ _ _ Hin)].
      rewrite Ha. pose proof Hin as Hsplit. apply in_split in Hsplit.
      destruct Hsplit as (before & after & Hsplit).
      apply (tryBackups_success keys net timeString message _ st k before c after Hsplit Hok).
Qed.

(** X1: one call of [getAIResponse] makes at most four outbound
    requests (the preferred provider, then the three backups), each to
    one of the four configured providers. *)
Theorem getAIResponse_makes_at_most_four_calls keys net timeString message st :
  reachable st ->
  (length (calls (getAIResponse keys net timeString message st)) <= 4)%nat /\
  Forall (fun c => In (api c) providers)
         (calls (getAIResponse keys net timeString message st)).
Proof.
  intros Hst.
  pose proof (reachable_invariant st Hst) as (_ & Hb & Hcur).
  destruct (getAIResponse_cases keys net timeString message st
              (reachable_current_known st Hst))
    as [(_ & _ & text & _ & _ & ->) | (_ & k & pre & Hpre & -> & _ & _)].
  - split; [cbn; lia | constructor; [exact Hcur | constructor]].
  - destruct (tryBackups_order keys net timeString message (backup st) st k) as [tail Hord].
    assert (Hlen : (length (calls (tryBackups keys net timeString message st k (backup st)))
                    <= 3)%nat).
    { pose proof (List.filter_length_le (hasCredential keys) (backup st)) as Hle.
      assert (H3 : length (backup st) = 3%nat) by (rewrite Hb; reflexivity).
      rewrite Hord, List.length_app, List.length_map in Hle. lia. }
    split.
    + rewrite List.length_app.
      destruct Hpre as [->|(failed & -> & _)]; cbn; lia.
    + apply Forall_app. split.
      * destruct Hpre as [->|(failed & -> & _ & Hapi & _)]; [constructor|].
        constructor; [rewrite Hapi; exact Hcur | constructor].
      * apply List.Forall_forall. intros c Hin.
        apply (backup_in_providers st _ Hst).
        apply (loop_calls_on_list _ _ _ _ _ _ _ _ Hin).
Qed.

Lemma getAIResponse_makes_at_most_four_calls_witness :
  (length (calls (getAIResponse sampleKeys nothingAnswers "10:15:00" "hello" AI_APIS))
   <= 4)%nat.
Proof.
  apply (getAIResponse_makes_at_most_four_calls sampleKeys nothingAnswers
           "10:15:00" "hello" AI_APIS).
  apply reachable_init.
Defined.

(** X2: the switch is sticky. When a fallback request to a provider
    succeeds, the next call of [getAIResponse] (same credentials, any
    message and network) starts with a request to that provider. *)
Theorem successful_fallback_is_tried_first_next
    keys net timeString message st c net' timeString' message' :
  reachable st ->
  In c (calls (getAIResponse keys net timeString message st)) ->
  role c = Fallback ->
  succeeded c = true ->
  exists response rest,
    calls (getAIResponse keys net' timeString' message'
             (apis (getAIResponse keys net timeString message st)))
    = {| role := Preferred; api := api c; response := response |} :: rest.
Proof.
  intros Hst Hin Hrole Hok.
  destruct (fallback_success_switches keys net timeString message st c
              (reachable_current_known st Hst) Hin Hrole Hok) as (-> & Hb & Hcred).
  destruct (providers_known (api c)) as [method Hm];
    [apply (backup_in_providers st _ Hst Hb)|].
  unfold getAIResponse at 1. cbn [currentActive switchTo]. rewrite Hcred, Hm.
  cbn [calls logCall]. eauto.
Qed.

Lemma successful_fallback_is_tried_first_next_witness :
  exists response rest,
    calls (getAIResponse sampleKeys nothingAnswers "10:16:00" "and now?" afterOpenAI)
    = {| role := Preferred; api := "openai"; response := response |} :: rest.
Proof.
  apply (successful_fallback_is_tried_first_next sampleKeys onlyOpenAI "10:15:00" "hello"
           AI_APIS {| role := Fallback; api := "openai"; response := Some "Happy to help." |}
           nothingAnswers "10:16:00" "and now?").
  - apply reachable_init.
  - vm_compute. right. left. reflexivity.
  - reflexivity.
  - reflexivity.
Defined.

(** X3: the primary provider is never retried. Once the pointer has
    left groq, no later call of [getAIResponse] sends a request to groq,
    and the pointer never returns to it. *)
Theorem primary_is_never_retried keys net timeString message st :
  reachable st ->
  currentActive st <> "groq" ->
  ~ In "groq" (map api (calls (getAIResponse keys net timeString message st))) /\
  currentActive (apis (getAIResponse keys net timeString message st)) <> "groq".
Proof.
  intros Hst Hne.
  destruct (getAIResponse_cases keys net timeString message st
              (reachable_current_known st Hst))
    as [(_ & -> & text & _ & _ & ->) | (_ & k & pre & Hpre & -> & _ & ->)].
  - split; [|exact Hne]. cbn. intros [H|[]]. congruence.
  - split.
    + rewrite map_app. intros Hin. apply in_app_or in Hin. destruct Hin as [Hin|Hin].
      * destruct Hpre as [->|(failed & -> & _ & Hapi & _)]; [destruct Hin|].
        cbn in Hin. destruct Hin as [H|[]]. congruence.
      * apply in_map_iff in Hin. destruct Hin as (c & Hc & Hin).
        apply loop_calls_on_list in Hin. destruct Hin as [Hin _].
        apply (backup_in_providers st _ Hst) in Hin. destruct Hin as [_ Hin]. congruence.
    + destruct (tryBackups_apis keys net timeString message (backup st) st k)
        as [->|(b & Hb & ->)]; [exact Hne|].
      cbn. apply (backup_in_providers st _ Hst Hb).
Qed.

Lemma primary_is_never_retried_witness :
  ~ In "groq" (map api (calls (getAIResponse sampleKeys nothingAnswers
                                 "10:16:00" "and now?" afterOpenAI))).
Proof.
  apply (primary_is_never_retried sampleKeys nothingAnswers "10:16:00" "and now?" afterOpenAI).
  - apply reachable_call, reachable_init.
  - vm_compute. discriminate.
Defined.

(** Each of the four call functions turns a blank outcome into a falsy
    result. *)
Lemma blank_outcome_is_falsy name method o message :
  apiMethods name = Some method -> blankOutcome o ->
  truthy (method o message) = false.
Proof.
  unfold apiMethods. intros Hm Hblank.
  assert (Hplain : forall content, allSpaces content = true ->
                     truthy (Some (trim content)) = false)
    by (intros content H; rewrite (trim_allSpaces content H); reflexivity).
  repeat match type of Hm with
         | (if ?b then _ else _) = _ => destruct b
         end;
    inversion Hm; subst; destruct o as [| | |content]; cbn in *; auto.
  unfold huggingFacePrompt. change ("Human: " +:+ message +:+ newline +:+ "AURA:")
    with (String "H" ("uman: " +:+ message +:+ newline +:+ "AURA:")).
  rewrite replace_allSpaces by (reflexivity || exact Hblank). auto.
Qed.

Lemma tryBackups_when_nothing_answers keys net timeString message rest : forall st k,
  (forall k name, blankOutcome (net k name)) ->
  Forall known rest ->
  value (tryBackups keys net timeString message st k rest)
    = Returned (getFallbackResponse timeString message) /\
  apis (tryBackups keys net timeString message st k rest) = st.
Proof.
  intros st k Hblank. revert k.
  induction rest as [|b rest IH]; intros k Hk; cbn; [auto|].
  inversion Hk as [|? ? [method Hm] Hk']; subst. rewrite Hm.
  destruct (hasCredential keys b); [|auto].
  pose proof (blank_outcome_is_falsy b method (net k b) message Hm (Hblank k b)) as Hf.
  destruct (method (net k b) message) as [[|ch text]|]; cbn; auto.
  discriminate.
Qed.

(** X4: a provider reply whose text is blank (empty or white space
    only) counts as a failure, like a transport error, a non-OK status
    or a malformed payload: when no request yields visible text,
    [getAIResponse] returns the local fallback reply and leaves the
    preferred provider as it was. *)
Theorem blank_provider_text_counts_as_failure keys net timeString message st :
  reachable st ->
  (forall k name, blankOutcome (net k name)) ->
  value (getAIResponse keys net timeString message st)
    = Returned (getFallbackResponse timeString message) /\
  apis (getAIResponse keys net timeString message st) = st.
Proof.
  intros Hst Hblank.
  destruct (reachable_current_known st Hst) as [method Hm].
  unfold getAIResponse. rewrite Hm.
  destruct (hasCredential keys (currentActive st));
    [|apply tryBackups_when_nothing_answers;
      [exact Hblank | apply reachable_backup_known, Hst]].
  pose proof (blank_outcome_is_falsy _ method (net 0%nat (currentActive st)) message
                Hm (Hblank _ _)) as Hf.
  destruct (method (net 0%nat (currentActive st)) message) as [[|ch text]|]; cbn;
    try discriminate;
    apply tryBackups_when_nothing_answers;
      solve [exact Hblank | apply reachable_backup_known, Hst].
Qed.

Lemma blank_provider_text_counts_as_failure_witness :
  value (getAIResponse sampleKeys (fun _ _ => Text "   ") "10:15:00" "any weather news?" AI_APIS)
  = Returned "I cannot check weather, but I hope you have a productive day ahead!".
Proof.
  destruct (blank_provider_text_counts_as_failure sampleKeys (fun _ _ => Text "   ")
              "10:15:00" "any weather news?" AI_APIS) as [Hv _].
  - apply reachable_init.
  - intros k name. reflexivity.
  - rewrite Hv. reflexivity.
Defined.

(** X5: [callHuggingFaceAPI] removes the echoed prompt. When the
    generated text starts with the prompt that was sent, the result is
    the trimmed remainder; when the prompt does not occur in it, the
    result is the trimmed text itself. *)
Theorem callHuggingFaceAPI_strips_prompt message :
  (forall answer,
     callHuggingFaceAPI (Text (huggingFacePrompt message +:+ answer)) message
     = Some (trim answer)) /\
  (forall generated_text,
     includes generated_text (huggingFacePrompt message) = false ->
     callHuggingFaceAPI (Text generated_text) message = Some (trim generated_text)).
Proof.
  split.
  - intros answer. unfold callHuggingFaceAPI. fold (huggingFacePrompt message).
    rewrite replace_at_prefix by apply prefix_append.
    rewrite dropChars_append. reflexivity.
  - intros generated_text H. unfold callHuggingFaceAPI. fold (huggingFacePrompt message).
    rewrite (replace_without_match _ _ _ H). reflexivity.
Qed.

Lemma callHuggingFaceAPI_strips_prompt_witness :
  callHuggingFaceAPI (Text "  Recursion is a function calling itself. ") "what is recursion"
  = Some "Recursion is a function calling itself.".
Proof.
  destruct (callHuggingFaceAPI_strips_prompt "what is recursion") as [_ H].
  rewrite H; reflexivity.
Defined.

(** X6: the "machine learning" row of the fallback table can never
    answer. Every text that contains "machine learning" contains "hi"
    (inside "machine"), and the "hi" row comes first; so
    [getFallbackResponse] never returns the machine-learning reply. *)
Theorem machine_learning_reply_is_unreachable timeString message :
  getFallbackResponse timeString message
  <> "Machine learning is a branch of AI that enables computers to learn and make decisions from data without explicit programming.".
Proof.
  unfold getFallbackResponse, fallbacks. cbn [scanFallbacks].
  destruct (includes (toLowerCase message) "hello"); [discriminate|].
  destruct (includes (toLowerCase message) "hi") eqn:Hhi; [discriminate|].
  destruct (includes (toLowerCase message) "machine learning") eqn:Hml.
  - assert (H : includes (toLowerCase message) "hi" = true)
      by (apply (includes_trans _ _ _ Hml); reflexivity).
    congruence.
  - repeat match goal with
           | |- context [includes ?s ?k] => destruct (includes s k); [discriminate|]
           end.
    discriminate.
Qed.

(** *** The status route and the credential test *)

Lemma hasRealKey_truthy key placeholder :
  hasRealKey key placeholder = true -> truthy key = true.
Proof. unfold hasRealKey. intros H. apply andb_true_iff in H. apply H. Qed.

Lemma API_KEYS_huggingface env :
  API_KEYS env !! "HUGGINGFACE_TOKEN"
  = Some (envOr env "HUGGINGFACE_TOKEN" "YOUR_HF_KEY_HERE").
Proof.
  unfold API_KEYS.
  rewrite lookup_insert_ne by discriminate.
  rewrite lookup_insert_ne by discriminate.
  rewrite lookup_insert_ne by discriminate.
  apply lookup_insert_eq.
Qed.

Lemma availableAPIs_listed (keys : gmap string string) name :
  In name (availableAPIs keys) ->
  (name = "groq" /\ truthy (keys !! "GROQ_API_KEY") = true) \/
  (name = "openai" /\ truthy (keys !! "OPENAI_API_KEY") = true) \/
  (name = "gemini" /\ truthy (keys !! "GEMINI_API_KEY") = true) \/
  (name = "huggingface" /\ truthy (keys !! "HUGGINGFACE_TOKEN") = true).
Proof.
  unfold availableAPIs, apiStatus. cbn [List.filter snd].
  destruct (hasRealKey (keys !! "GROQ_API_KEY") "YOUR_GROQ_KEY_HERE") eqn:E1;
  destruct (hasRealKey (keys !! "OPENAI_API_KEY") "YOUR_OPENAI_KEY_HERE") eqn:E2;
  destruct (hasRealKey (keys !! "GEMINI_API_KEY") "YOUR_GEMINI_KEY_HERE") eqn:E3;
  destruct (hasRealKey (keys !! "HUGGINGFACE_TOKEN") "YOUR_HF_KEY_HERE") eqn:E4;
  try apply hasRealKey_truthy in E1; try apply hasRealKey_truthy in E2;
  try apply hasRealKey_truthy in E3; try apply hasRealKey_truthy in E4;
  cbn; intuition (subst; auto).
Qed.

Lemma credential_by_first_name (keys : gmap string string) (a b : string) :
  truthy (keys !! a) = true -> truthy (orElse (keys !! a) (keys !! b)) = true.
Proof. intros H. unfold orElse. rewrite H. exact H. Qed.

Lemma credential_by_second_name (keys : gmap string string) (a b : string) :
  truthy (keys !! b) = true -> truthy (orElse (keys !! a) (keys !! b)) = true.
Proof. intros H. unfold orElse. destruct (truthy (keys !! a)) eqn:E; assumption. Qed.

(** X7: [GET /api/status] and [getAIResponse] disagree on what a key is.
    Every provider that the status route lists as available is a
    configured provider and passes the credential test of
    [getAIResponse]. The converse fails: when the environment has no
    HuggingFace token, the status route does not list huggingface, yet
    [getAIResponse] accepts the placeholder and, whenever no request
    succeeds, has sent one to huggingface. *)
Theorem status_route_and_credential_test :
  (forall keys name,
     In name (availableAPIs keys) ->
     In name providers /\ hasCredential keys name = true) /\
  (forall env net timeString message st,
     reachable st ->
     env !! "HUGGINGFACE_TOKEN" = None ->
     ~ In "huggingface" (availableAPIs (API_KEYS env)) /\
     (Forall (fun c => succeeded c = false)
             (calls (getAIResponse (API_KEYS env) net timeString message st)) ->
      In "huggingface"
         (map api (calls (getAIResponse (API_KEYS env) net timeString message st))))).
Proof.
  split.
  - intros keys name Hin. apply availableAPIs_listed in Hin.
    unfold providers, hasCredential.
    destruct Hin as [[-> H]|[[-> H]|[[-> H]|[-> H]]]].
    + split; [cbn; auto|]. apply (credential_by_first_name keys "GROQ_API_KEY" _ H).
    + split; [cbn; auto|]. apply (credential_by_first_name keys "OPENAI_API_KEY" _ H).
    + split; [cbn; auto|]. apply (credential_by_first_name keys "GEMINI_API_KEY" _ H).
    + split; [cbn; auto|]. apply (credential_by_second_name keys _ "HUGGINGFACE_TOKEN" H).
  - intros env net timeString message st Hst Henv. split.
    + assert (Hhf : hasRealKey (API_KEYS env !! "HUGGINGFACE_TOKEN") "YOUR_HF_KEY_HERE" = false).
      { rewrite API_KEYS_huggingface. unfold envOr. rewrite Henv. reflexivity. }
      unfold availableAPIs, apiStatus. rewrite Hhf. cbn [List.filter snd].
      destruct (hasRealKey (API_KEYS env !! "GROQ_API_KEY") "YOUR_GROQ_KEY_HERE"),
               (hasRealKey (API_KEYS env !! "OPENAI_API_KEY") "YOUR_OPENAI_KEY_HERE"),
               (hasRealKey (API_KEYS env !! "GEMINI_API_KEY") "YOUR_GEMINI_KEY_HERE");
        cbn; intuition discriminate.
    + intros Hall.
      destruct (getAIResponse_cases (API_KEYS env) net timeString message st
                  (reachable_current_known st Hst))
        as [(_ & _ & text & Hne & _ & Hcalls) | (_ & k & pre & _ & Hcalls & _ & _)].
      * rewrite Hcalls in Hall. inversion Hall as [|? ? Hc _]; subst.
        unfold succeeded in Hc; cbn in Hc. destruct text; [contradiction|discriminate].
      * rewrite Hcalls in *. apply Forall_app in Hall. destruct Hall as [_ Hall].
        rewrite map_app. apply in_or_app. right.
        destruct (tryBackups_all_failed (API_KEYS env) net timeString message (backup st)
                    st k (reachable_backup_known st Hst) Hall) as (-> & _).
        apply List.filter_In. split; [|apply huggingface_entry_never_empty].
        destruct (reachable_invariant st Hst) as (_ & -> & _). cbn. auto.
Qed.

Lemma status_route_and_credential_test_witness :
  availableAPIs (API_KEYS ∅) = [] /\
  In "huggingface" (map api (calls (getAIResponse (API_KEYS ∅) nothingAnswers
                                      "10:15:00" "hello" AI_APIS))).
Proof.
  split; [vm_compute; reflexivity|].
  destruct status_route_and_credential_test as [_ H].
  destruct (H ∅ nothingAnswers "10:15:00" "hello" AI_APIS reachable_init) as [_ Hcalls].
  - reflexivity.
  - apply Hcalls. vm_compute. repeat constructor.
Defined.

(** *** The work-session timer *)

(** X8: [checkTimerStatus] never throws, although [handleTimerComplete]
    on its own does for a user without a record: for every map, user and
    clock reading it returns an object whose status is one of
    [no_active_timer], [active], [session_complete],
    [ai_clone_activated]. *)
Theorem checkTimerStatus_never_throws now now' userId (activeTimers : gmap string TimerData) :
  (exists r timers status,
     checkTimerStatus now now' userId activeTimers = (Returned r, timers) /\
     get "status" r = Some (Str status) /\ In status timerStatuses) /\
  (activeTimers !! userId = None ->
   exists e, handleTimerComplete now' userId activeTimers = (Thrown e, activeTimers)).
Proof.
  split.
  - unfold checkTimerStatus, timerStatuses.
    destruct (activeTimers !! userId) as [timer|] eqn:Hget;
      [|eexists _, _, _; split; [reflexivity|]; split; [reflexivity|]; cbn; auto].
    destruct (negb (isActive timer));
      [eexists _, _, _; split; [reflexivity|]; split; [reflexivity|]; cbn; auto|].
    destruct (Z.max 0 (duration timer - (now - startTime timer)) <=? 0);
      [|eexists _, _, _; split; [reflexivity|]; split; [reflexivity|]; cbn; auto].
    unfold handleTimerComplete. rewrite Hget.
    destruct (2 <=? alarmCount (setAlarmCount (alarmCount timer + 1) timer));
      eexists _, _, _; (split; [reflexivity|]); (split; [reflexivity|]); cbn; auto 10.
  - intros Hnone. unfold handleTimerComplete. rewrite Hnone. eauto.
Qed.

Lemma checkTimerStatus_never_throws_witness :
  exists e, handleTimerComplete 0 "nobody" ∅ = (Thrown e, ∅).
Proof.
  apply (checkTimerStatus_never_throws 0 0 "nobody" ∅). reflexivity.
Defined.

(** X9: a poll is confined to its user. [checkTimerStatus] for one user
    leaves the record of every other user as it was, and it neither
    creates nor removes a record: the map has the same users before and
    after. *)
Theorem checkTimerStatus_is_confined_to_its_user now now' userId
    (activeTimers : gmap string TimerData) :
  (forall other, other <> userId ->
     (checkTimerStatus now now' userId activeTimers).2 !! other = activeTimers !! other) /\
  dom (checkTimerStatus now now' userId activeTimers).2 = dom activeTimers.
Proof.
  unfold checkTimerStatus.
  destruct (activeTimers !! userId) as [timer|] eqn:Hget; [|split; reflexivity].
  destruct (negb (isActive timer)); [split; reflexivity|].
  destruct (Z.max 0 (duration timer - (now - startTime timer)) <=? 0); [|split; reflexivity].
  unfold handleTimerComplete. rewrite Hget.
  destruct (2 <=? alarmCount (setAlarmCount (alarmCount timer + 1) timer)); cbn [snd];
    (split; [intros other Hne; apply lookup_insert_ne; congruence
            | apply dom_insert_lookup_L; rewrite Hget; eauto]).
Qed.

Lemma checkTimerStatus_is_confined_to_its_user_witness :
  (checkTimerStatus 2400000 2400001 "alice"
     (startWorkTimer 5 "bob" (startWorkTimer 0 "alice" ∅).2).2).2 !! "bob"
  = (startWorkTimer 5 "bob" (startWorkTimer 0 "alice" ∅).2).2 !! "bob".
Proof.
  apply (checkTimerStatus_is_confined_to_its_user 2400000 2400001 "alice"
           (startWorkTimer 5 "bob" (startWorkTimer 0 "alice" ∅).2).2).
  discriminate.
Defined.

Lemma applyOp_shape (activeTimers : gmap string TimerData) op :
  map_Forall (fun _ timer => timerShape timer) activeTimers ->
  map_Forall (fun _ timer => timerShape timer) (applyOp activeTimers op).
Proof.
  intros Hinv. destruct op as [now userId | now now' userId]; cbn.
  - apply map_Forall_insert_2; [|exact Hinv].
    unfold timerShape; cbn. auto 10.
  - unfold checkTimerStatus.
    destruct (activeTimers !! userId) as [timer|] eqn:Hget; [|exact Hinv].
    destruct (isActive timer) eqn:Hact; cbn [negb]; [|exact Hinv].
    destruct (Z.max 0 (duration timer - (now - startTime timer)) <=? 0); [|exact Hinv].
    unfold handleTimerComplete. rewrite Hget.
    destruct (Hinv userId timer Hget) as (Hd & Hm & Hshape).
    destruct Hshape as [(H0 & Hs & _)|[(H1 & Hs & _)|(_ & _ & Hoff)]]; [| |congruence].
    + cbn. rewrite H0. cbn. apply map_Forall_insert_2; [|exact Hinv].
      unfold timerShape; cbn. auto 10.
    + cbn. rewrite H1. cbn. apply map_Forall_insert_2; [|exact Hinv].
      unfold timerShape; cbn. auto 10.
Qed.

(** X10: a timer record has one of three shapes throughout its life.
    In every map produced from the empty map by any sequence of starts
    and polls, each record has duration 2400000 ms and mode "work", and
    is either in session 1 with no alarm (active), in session 2 with one
    alarm (active), or finished with two alarms in session 2
    (inactive). *)
Theorem timer_records_have_three_shapes ops :
  map_Forall (fun _ timer => timerShape timer) (runOps ops ∅).
Proof.
  assert (H : forall (activeTimers : gmap string TimerData),
             map_Forall (fun _ timer => timerShape timer) activeTimers ->
             map_Forall (fun _ timer => timerShape timer) (runOps ops activeTimers)).
  { induction ops as [|op ops IH]; intros activeTimers Hinv; cbn; [exact Hinv|].
    apply IH, applyOp_shape, Hinv. }
  apply H, map_Forall_empty.
Qed.

(** X11: the time a poll reports for a running session is the remaining
    time in whole seconds. For an active record inside its window the
    answer is [active], the map is untouched, and [timeLeft] reads
    "mm:ss" with [0 <= ss < 60] and [60 * mm + ss] equal to the remaining
    milliseconds divided by 1000, rounded down. *)
Theorem active_poll_reports_remaining_seconds now now' userId
    (activeTimers : gmap string TimerData) timer :
  activeTimers !! userId = Some timer ->
  isActive timer = true ->
  now - startTime timer < duration timer ->
  exists r minutes seconds,
    checkTimerStatus now now' userId activeTimers = (Returned r, activeTimers) /\
    get "status" r = Some (Str "active") /\
    get "sessionNumber" r = Some (Num (sessionNumber timer)) /\
    get "timeLeft" r
      = Some (Str (padStart2 (toString minutes) +:+ ":" +:+ padStart2 (toString seconds))) /\
    0 <= minutes /\ 0 <= seconds < 60 /\
    60 * minutes + seconds = (duration timer - (now - startTime timer)) / 1000.
Proof.
  intros Hget Hact Hwin. unfold checkTimerStatus. rewrite Hget, Hact. cbn [negb].
  assert (Hrem : Z.max 0 (duration timer - (now - startTime timer))
                 = duration timer - (now - startTime timer)) by lia.
  rewrite Hrem.
  set (remaining := duration timer - (now - startTime timer)) in *.
  destruct (remaining <=? 0) eqn:Hle; [apply Z.leb_le in Hle; lia|].
  exists (Obj [
     ("status", Str "active");
     ("timeLeft", Str (padStart2 (toString (remaining / 60000)) +:+ ":"
                       +:+ padStart2 (toString (Z.rem remaining 60000 / 1000))));
     ("sessionNumber", Num (sessionNumber timer));
     ("message", Str ("Work session " +:+ toString (sessionNumber timer)
                      +:+ " in progress. " +:+ toString (remaining / 60000) +:+ " minutes "
                      +:+ toString (Z.rem remaining 60000 / 1000) +:+ " seconds remaining."));
     ("motivationalMessage", Str (getMotivationalMessage (remaining / 60000))) ]),
    (remaining / 60000), (Z.rem remaining 60000 / 1000).
  split; [reflexivity|]. split; [reflexivity|]. split; [reflexivity|].
  split; [reflexivity|].
  assert (Hpos : 0 < remaining) by lia.
  rewrite Z.rem_mod_nonneg by lia.
  pose proof (Z.mod_pos_bound remaining 60000 ltac:(lia)) as Hmod.
  pose proof (Z.div_mod remaining 60000 ltac:(lia)) as Hdm.
  split; [apply Z.div_pos; lia|].
  split.
  - split; [apply Z.div_pos; lia | apply Z.div_lt_upper_bound; lia].
  - rewrite Hdm at 3.
    replace (60000 * (remaining / 60000) + remaining mod 60000)
      with (60 * (remaining / 60000) * 1000 + remaining mod 60000) by lia.
    rewrite Z.div_add_l by lia. reflexivity.
Qed.

Lemma active_poll_reports_remaining_seconds_witness :
  exists r minutes seconds,
    checkTimerStatus 90500 90500 "default" (startWorkTimer 0 "default" ∅).2
      = (Returned r, (startWorkTimer 0 "default" ∅).2) /\
    get "status" r = Some (Str "active") /\
    get "sessionNumber" r = Some (Num 1) /\
    get "timeLeft" r
      = Some (Str (padStart2 (toString minutes) +:+ ":" +:+ padStart2 (toString seconds))) /\
    0 <= minutes /\ 0 <= seconds < 60 /\
    60 * minutes + seconds = (2400000 - (90500 - 0)) / 1000.
Proof.
  apply (active_poll_reports_remaining_seconds 90500 90500 "default"
           (startWorkTimer 0 "default" ∅).2
           {| startTime := 0; duration := 2400000; alarmCount := 0;
              isActive := true; mode := "work"; sessionNumber := 1 |}).
  - apply lookup_insert_eq.
  - reflexivity.
  - cbn. lia.
Defined.

(** *** Command routing and the routes *)

Lemma getField_setField_eq name v fields :
  getField name (setField name v fields) = Some v.
Proof.
  induction fields as [|[k old] fields IH]; cbn.
  - rewrite String.eqb_refl. reflexivity.
  - destruct (String.eqb k name) eqn:E; cbn; rewrite E; [reflexivity | exact IH].
Qed.

Lemma getField_setField_ne name name' v fields :
  name <> name' -> getField name (setField name' v fields) = getField name fields.
Proof.
  intros Hne. induction fields as [|[k old] fields IH]; cbn.
  - destruct (String.eqb name' name) eqn:E; [|reflexivity].
    apply String.eqb_eq in E. congruence.
  - destruct (String.eqb k name') eqn:E; cbn.
    + apply String.eqb_eq in E. subst k.
      destruct (String.eqb name' name) eqn:E'; [|reflexivity].
      apply String.eqb_eq in E'. congruence.
    + rewrite IH. reflexivity.
Qed.

(** The voice wrapper keeps the text it wraps. *)
Lemma voice_wrap_includes text kind :
  includes (generateVoiceResponse text kind) text = true.
Proof. unfold generateVoiceResponse. apply includes_split. eauto. Qed.

(** What [withVoice] does to an object that has a text [message]. *)
Lemma withVoice_fields kind fields message :
  getField "message" fields = Some (Str message) ->
  get "message" (withVoice kind (Obj fields)) = Some (Str message) /\
  get "status" (withVoice kind (Obj fields)) = getField "status" fields /\
  get "voiceMessage" (withVoice kind (Obj fields))
    = Some (Str (generateVoiceResponse message kind)).
Proof.
  intros Hm. unfold withVoice, messageOf. cbn [get set]. rewrite Hm.
  rewrite !getField_setField_ne by discriminate.
  rewrite getField_setField_eq. auto.
Qed.

(** The answers of [checkTimerStatus] are objects with a status from
    its list and a text message. *)
Lemma poll_reply_fields now now' userId (activeTimers : gmap string TimerData) :
  exists fields timers status message,
    checkTimerStatus now now' userId activeTimers = (Returned (Obj fields), timers) /\
    getField "status" fields = Some (Str status) /\ In status timerStatuses /\
    getField "message" fields = Some (Str message).
Proof.
  unfold checkTimerStatus, timerStatuses, noActiveTimer.
  destruct (activeTimers !! userId) as [timer|] eqn:Hget;
    [|eexists _, _, _, _; split; [reflexivity|]; split; [reflexivity|]; cbn; auto].
  destruct (negb (isActive timer));
    [eexists _, _, _, _; split; [reflexivity|]; split; [reflexivity|]; cbn; auto|].
  destruct (Z.max 0 (duration timer - (now - startTime timer)) <=? 0);
    [|eexists _, _, _, _; split; [reflexivity|]; split; [reflexivity|]; cbn; auto].
  unfold handleTimerComplete. rewrite Hget.
  destruct (2 <=? alarmCount (setAlarmCount (alarmCount timer + 1) timer));
    eexists _, _, _, _; (split; [reflexivity|]); (split; [reflexivity|]); cbn; auto 10.
Qed.

(** [handleSpecialCommands] read as a dispatch on the first matching
    row of the trigger table. *)
Lemma handleSpecialCommands_dispatch now now' roll command userId
    (timers : gmap string TimerData) :
  handleSpecialCommands now now' roll command userId timers
  = dispatch now now' roll (firstMatch (toLowerCase command))
             (toLowerCase command) userId timers.
Proof.
  unfold handleSpecialCommands, firstMatch, triggers, matchesAny.
  cbn [List.find existsb fst snd]. rewrite !orb_false_r, !orb_assoc.
  repeat match goal with
         | |- context [if ?b then _ else _] =>
             lazymatch b with
             | context [includes _ "advanced"] => fail
             | _ => destruct b; [reflexivity|]
             end
         end.
  reflexivity.
Qed.

(** On a command that is a string, [handleSpecialCommands] returns, and
    every object it answers with carries a status from a fixed list, a
    text message and a spoken version of it. Except for the scan prompt,
    whose spoken text is written out separately, the spoken version
    contains the message. *)
Lemma special_replies_carry_status_message_voice now now' roll command userId
    (activeTimers : gmap string TimerData) :
  exists result timers,
    handleSpecialCommands now now' roll command userId activeTimers
      = (Returned result, timers) /\
    forall r, result = Some r ->
      exists status message voice,
        get "status" r = Some (Str status) /\ In status specialStatuses /\
        get "message" r = Some (Str message) /\
        get "voiceMessage" r = Some (Str voice) /\
        (status <> "scan_mode_ready" -> includes voice message = true).
Proof.
  rewrite handleSpecialCommands_dispatch. unfold specialStatuses, timerStatuses.
  destruct (firstMatch (toLowerCase command)) as [[]|]; cbn [dispatch].
  - eexists _, _. split; [reflexivity|]. intros r Hr. inversion Hr; subst.
    eexists _, _, _. split; [reflexivity|]. split; [cbn; auto|].
    split; [reflexivity|]. split; [reflexivity|]. intros _. apply voice_wrap_includes.
  - destruct (poll_reply_fields now now' userId activeTimers)
      as (fields & timers & status & message & -> & Hs & Hin & Hm).
    eexists _, _. split; [reflexivity|]. intros r Hr. inversion Hr; subst.
    destruct (withVoice_fields "timer" fields message Hm) as (H1 & H2 & H3).
    exists status, message, (generateVoiceResponse message "timer").
    split; [etransitivity; [exact H2 | exact Hs]|].
    split; [apply in_or_app; right; apply in_or_app; left; exact Hin|].
    split; [exact H1|]. split; [exact H3|].
    intros _. apply voice_wrap_includes.
  - eexists _, _. split; [reflexivity|]. intros r Hr. inversion Hr; subst.
    eexists _, _, _. split; [reflexivity|]. split; [cbn; auto 10|].
    split; [reflexivity|]. split; [reflexivity|]. intros _. apply voice_wrap_includes.
  - eexists _, _. split; [reflexivity|]. intros r Hr. inversion Hr; subst.
    destruct (includes (toLowerCase command) "advanced");
      (eexists _, _, _; split; [reflexivity|]; split; [cbn; auto 20|];
       split; [reflexivity|]; split; [reflexivity|]; intros _; apply voice_wrap_includes).
  - eexists _, _. split; [reflexivity|]. intros r Hr. inversion Hr; subst.
    eexists _, _, _. split; [reflexivity|]. split; [cbn; auto 20|].
    split; [reflexivity|]. split; [reflexivity|]. intros H. contradiction.
  - eexists _, _. split; [reflexivity|]. intros r Hr. inversion Hr; subst.
    eexists _, _, _. split; [reflexivity|]. split; [cbn; auto 20|].
    split; [reflexivity|]. split; [reflexivity|]. intros _. apply voice_wrap_includes.
  - eexists _, _. split; [reflexivity|]. intros r Hr. discriminate.
Qed.




(** On a command that is a string, from a reachable provider
    configuration, [/api/voice/process] answers and never touches the
    timer map. A command that mentions "scan", "document" or "read" is
    answered with the scan request and sends nothing to a provider; any
    other command, a timer or safe-mode command included, is answered
    with the text of [getAIResponse] and its spoken wrapping. *)
Lemma voiceProcess_bypasses_special_commands keys net timeString isoTimestamp
    command srv :
  reachable (aiApis srv) ->
  exists reply srv' response,
    voiceProcess keys net timeString isoTimestamp command srv = (Returned reply, srv') /\
    get "success" reply = Some (Boolean true) /\
    get "response" reply = Some response /\
    activeTimers srv' = activeTimers srv /\
    (asksForScan command = true -> response = scanRequest /\ srv' = srv) /\
    (asksForScan command = false ->
     exists text,
       value (getAIResponse keys net timeString command (aiApis srv)) = Returned text /\
       aiApis srv' = apis (getAIResponse keys net timeString command (aiApis srv)) /\
       get "type" response = Some (Str "conversation") /\
       get "message" response = Some (Str text) /\
       get "voiceMessage" response
       = Some (Str ("I understand what you're asking. " +:+ text
                    +:+ " Is there anything else you'd like to know?"))).
Proof.
  intros Hst. unfold voiceProcess, asksForScan.
  destruct (includes (toLowerCase command) "scan" || includes (toLowerCase command) "document"
            || includes (toLowerCase command) "read").
  - eexists _, _, _. split; [reflexivity|]. split; [reflexivity|]. split; [reflexivity|].
    split; [reflexivity|]. split; [auto | discriminate].
  - assert (Hret : exists text,
        value (getAIResponse keys net timeString command (aiApis srv)) = Returned text).
    { destruct (getAIResponse_cases keys net timeString command (aiApis srv)
                  (reachable_current_known _ Hst))
        as [(_ & _ & text & _ & Hv & _) | (_ & k & pre & _ & _ & Hv & _)]; [eauto|].
      destruct (tryBackups_value keys net timeString command (backup (aiApis srv))
                  (aiApis srv) k (reachable_backup_known _ Hst)) as (text & Hv' & _).
      rewrite Hv. eauto. }
    destruct Hret as [text Hv]. rewrite Hv.
    eexists _, _, _. split; [reflexivity|]. split; [reflexivity|]. split; [reflexivity|].
    split; [reflexivity|]. split; [discriminate|].
    intros _. exists text. auto.
Qed.


(** *** Document scanning *)

(** X15: [processDocument] is a stub that draws from its catalog. For
    the draws [Math.random] can produce (an index below 3, a confidence
    draw from 0 to 29) it returns the type, text and key points of the
    catalog entry drawn, a confidence from 70 to 99, and a spoken
    summary that contains the whole text of the entry (no entry is cut
    at 200 characters); the image path has no influence on the
    result. *)
Theorem processDocument_draws_from_catalog docRoll confRoll imagePath :
  (docRoll < 3)%nat ->
  0 <= confRoll < 30 ->
  exists doc r,
    nth_error documentTypes docRoll = Some doc /\
    processDocument docRoll confRoll imagePath = Returned r /\
    get "documentType" r = Some (Str (type doc)) /\
    get "content" r = Some (Str (content doc)) /\
    get "keyPoints" r = Some (Arr (map Str (keyPoints doc))) /\
    (exists c, get "confidence" r = Some (Num c) /\ 70 <= c <= 99) /\
    includes (textOf "voiceResponse" r) (content doc) = true /\
    (forall otherPath, processDocument docRoll confRoll otherPath = Returned r).
Proof.
  intros Hdoc Hconf.
  destruct docRoll as [|[|[|n]]]; [| | |lia];
    (eexists _, _; split; [reflexivity|]; split; [reflexivity|];
     split; [reflexivity|]; split; [reflexivity|]; split; [reflexivity|];
     split; [exists (confRoll + 70); split; [reflexivity | lia]|];
     split; [vm_compute; reflexivity | reflexivity]).
Qed.

Lemma processDocument_draws_from_catalog_witness :
  exists doc r,
    nth_error documentTypes 1 = Some doc /\
    processDocument 1 15 "uploads/abc" = Returned r /\
    get "documentType" r = Some (Str (type doc)) /\
    get "content" r = Some (Str (content doc)) /\
    get "keyPoints" r = Some (Arr (map Str (keyPoints doc))) /\
    (exists c, get "confidence" r = Some (Num c) /\ 70 <= c <= 99) /\
    includes (textOf "voiceResponse" r) (content doc) = true /\
    (forall otherPath, processDocument 1 15 otherPath = Returned r).
Proof.
  apply (processDocument_draws_from_catalog 1 15 "uploads/abc"); lia.
Defined.



(** X17: [/api/scan/document] without an uploaded file answers
    [success: false] and schedules no deletion. With a file it answers
    [success: true], schedules the deletion of exactly that file, and
    the [visualData] block repeats the document type, key points and
    confidence of the scan it sits in. *)
Theorem scanDocument_cleans_up_its_upload docRoll confRoll isoTimestamp :
  (docRoll < 3)%nat ->
  scanDocument docRoll confRoll isoTimestamp None
  = (Obj [ ("success", Boolean false); ("error", Str "No document image provided") ], None) /\
  forall upload,
    exists reply scan visual,
      scanDocument docRoll confRoll isoTimestamp (Some upload) = (reply, Some (path upload)) /\
      get "success" reply = Some (Boolean true) /\
      get "scan" reply = Some scan /\
      get "visualData" scan = Some visual /\
      get "documentType" visual = get "documentType" scan /\
      get "keyPoints" visual = get "keyPoints" scan /\
      get "confidence" visual = get "confidence" scan /\
      get "confidence" scan = Some (Num (confRoll + 70)).
Proof.
  intros Hdoc. split; [reflexivity|]. intros upload. unfold scanDocument.
  destruct docRoll as [|[|[|n]]]; [| | |lia];
    (eexists _, _, _; split; [reflexivity|]; split; [reflexivity|];
     split; [reflexivity|]; split; [reflexivity|]; split; [reflexivity|];
     split; [reflexivity|]; split; reflexivity).
Qed.

Lemma scanDocument_cleans_up_its_upload_witness :
  (scanDocument 2 0 "2025-01-01T10:15:00.000Z"
                (Some {| filename := "f81d4fae"; path := "uploads/f81d4fae" |})).2
  = Some "uploads/f81d4fae".
Proof.
  destruct (scanDocument_cleans_up_its_upload 2 0 "2025-01-01T10:15:00.000Z") as [_ H];
    [lia|].
  destruct (H {| filename := "f81d4fae"; path := "uploads/f81d4fae" |})
    as (reply & scan & visual & Hrun & _).
  rewrite Hrun. reflexivity.
Defined.

(** *** The page script *)

Lemma existsb_eqb_In id ids : In id ids -> existsb (Nat.eqb id) ids = true.
Proof.
  intros H. apply existsb_exists. exists id. split; [exact H | apply Nat.eqb_refl].
Qed.

(** A firing of a live countdown with more than one second left only
    lowers [timeLeft] and rewrites the display. *)
Lemma countdownTick_running id p :
  In id (Client.countdowns p) ->
  1 < Client.timeLeft (Client.aura p) ->
  Client.countdownTick id p
  = Client.putTimerDisplay (clockText (Client.timeLeft (Client.aura p) - 1))
      (Client.update (Client.setTimeLeft (Client.timeLeft (Client.aura p) - 1)) p).
Proof.
  intros Hin Hleft. unfold Client.countdownTick. rewrite (existsb_eqb_In _ _ Hin).
  unfold Client.updateTimerDisplay. cbn.
  destruct (Client.timeLeft (Client.aura p) - 1 <=? 0) eqn:E;
    [apply Z.leb_le in E; lia | reflexivity].
Qed.

Lemma ticks_succ id k p :
  ticks id (S k) p = Client.countdownTick id (ticks id k p).
Proof. reflexivity. Qed.

Lemma countdown_after_ticks p k :
  (0 < k < 2400)%nat ->
  ticks (Client.nextId p) k (Client.startTimerDisplay p)
  = Client.putTimerDisplay (clockText (2400 - Z.of_nat k))
      (Client.update (Client.setTimeLeft (2400 - Z.of_nat k)) (Client.startTimerDisplay p)).
Proof.
  assert (Hlive : In (Client.nextId p) (Client.countdowns (Client.startTimerDisplay p)))
    by (cbn; apply in_or_app; right; left; reflexivity).
  induction k as [|k IH]; intros Hk; [lia|].
  rewrite ticks_succ. destruct k as [|k].
  - change (ticks (Client.nextId p) 0 (Client.startTimerDisplay p))
      with (Client.startTimerDisplay p).
    rewrite countdownTick_running; [reflexivity | exact Hlive | cbn; lia].
  - rewrite IH by lia.
    replace (2400 - Z.of_nat (S (S k))) with (2400 - Z.of_nat (S k) - 1) by lia.
    rewrite countdownTick_running; [reflexivity | exact Hlive |].
    change (1 < 2400 - Z.of_nat (S k)). lia.
Qed.

(** X18: the countdown of the page. After [startTimerDisplay()], [k]
    firings of its interval (for [0 < k < 2400]) change nothing but the
    seconds left, which are [2400 - k], and the display, which shows
    them as "mm:ss": the timer stays active and the interval stays
    live. (The callback also sets the width of the progress bar, which
    is styling and outside the modelled page.) *)
Theorem countdown_shows_remaining_time p k :
  (0 < k < 2400)%nat ->
  ticks (Client.nextId p) k (Client.startTimerDisplay p)
  = Client.putTimerDisplay (clockText (2400 - Z.of_nat k))
      (Client.update (Client.setTimeLeft (2400 - Z.of_nat k)) (Client.startTimerDisplay p)) /\
  Client.timerActive (Client.aura (ticks (Client.nextId p) k (Client.startTimerDisplay p)))
    = true /\
  In (Client.nextId p)
     (Client.countdowns (ticks (Client.nextId p) k (Client.startTimerDisplay p))).
Proof.
  intros Hk. rewrite (countdown_after_ticks p k Hk).
  split; [reflexivity|]. split; [reflexivity|].
  cbn. apply in_or_app. right. left. reflexivity.
Qed.

Lemma countdown_shows_remaining_time_witness :
  Client.timerDisplay (ticks 1 90 (Client.startTimerDisplay blankPage)) = "38:30".
Proof.
  destruct (countdown_shows_remaining_time blankPage 90) as [H _]; [lia|].
  change (Client.nextId blankPage) with 1%nat in H. rewrite H. reflexivity.
Defined.

Lemma filter_out_fresh id ids :
  Forall (fun i => (i < id)%nat) ids ->
  List.filter (fun i => negb (Nat.eqb i id)) (ids ++ [id]) = ids.
Proof.
  intros H. rewrite List.filter_app. cbn. rewrite Nat.eqb_refl. cbn.
  rewrite app_nil_r. induction H as [|i ids Hi _ IH]; cbn; [reflexivity|].
  destruct (Nat.eqb i id) eqn:E; [apply Nat.eqb_eq in E; lia|].
  cbn. rewrite IH. reflexivity.
Qed.

Lemma countdown_last_tick p :
  ticks (Client.nextId p) 2400 (Client.startTimerDisplay p)
  = Client.handleTimerComplete
      (Client.putTimerDisplay "00:00"
         (Client.update (Client.setTimeLeft 0) (Client.startTimerDisplay p))).
Proof.
  rewrite ticks_succ, countdown_after_ticks by lia.
  replace (2400 - Z.of_nat 2399) with 1 by reflexivity.
  unfold Client.countdownTick.
  rewrite existsb_eqb_In by (cbn; apply in_or_app; right; left; reflexivity).
  reflexivity.
Qed.

(** What the page's [handleTimerComplete()] leaves behind. *)
Lemma page_handleTimerComplete_fields p :
  Client.timerActive (Client.aura (Client.handleTimerComplete p)) = false /\
  Client.timerInterval (Client.aura (Client.handleTimerComplete p)) = None /\
  Client.timeLeft (Client.aura (Client.handleTimerComplete p))
    = Client.timeLeft (Client.aura p) /\
  Client.timerDisplay (Client.handleTimerComplete p) = "40:00" /\
  Client.countdowns (Client.handleTimerComplete p)
    = match Client.timerInterval (Client.aura p) with
      | Some id => List.filter (fun i => negb (Nat.eqb i id)) (Client.countdowns p)
      | None => Client.countdowns p
      end /\
  if 2 <=? Client.alarmCount (Client.aura p) + 1
  then Client.alarmCount (Client.aura (Client.handleTimerComplete p)) = 0 /\
       Client.alarmLabel (Client.handleTimerComplete p) = "0/2" /\
       Client.cloneActive (Client.aura (Client.handleTimerComplete p)) = true
  else Client.alarmCount (Client.aura (Client.handleTimerComplete p))
         = Client.alarmCount (Client.aura p) + 1 /\
       Client.alarmLabel (Client.handleTimerComplete p)
         = toString (Client.alarmCount (Client.aura p) + 1) +:+ "/2" /\
       Client.cloneActive (Client.aura (Client.handleTimerComplete p))
         = Client.cloneActive (Client.aura p).
Proof.
  destruct p as [[cm il isp ta ti tl sn ac ca syn] cds sims pend nid td sl al ml cbd cst acts ch sp].
  cbn [Client.aura Client.alarmCount Client.cloneActive Client.countdowns
       Client.timerInterval Client.timeLeft].
  match goal with
  | |- context [Client.handleTimerComplete ?page] =>
      remember (Client.handleTimerComplete page) as q eqn:Hq
  end.
  unfold Client.handleTimerComplete in Hq.
  destruct syn, isp, ti as [id|];
    lazy beta iota zeta delta -[Z.add Z.leb toString List.filter Nat.eqb negb String.append] in Hq;
    destruct (2 <=? ac + 1); subst q; repeat split; reflexivity.
Qed.

(** X19: the end of the countdown. The 2400th firing after
    [startTimerDisplay()] completes the session: the timer is stopped
    (inactive, its interval cleared, the display back at "40:00" while
    [timeLeft] stays 0). After a first session the alarm count is 1;
    after a second one the clone display is activated and the alarm
    count is back at 0. *)
Theorem countdown_completes_the_session p :
  Client.timerActive (Client.aura (ticks (Client.nextId p) 2400 (Client.startTimerDisplay p)))
    = false /\
  Client.timerInterval (Client.aura (ticks (Client.nextId p) 2400 (Client.startTimerDisplay p)))
    = None /\
  Client.timeLeft (Client.aura (ticks (Client.nextId p) 2400 (Client.startTimerDisplay p)))
    = 0 /\
  Client.timerDisplay (ticks (Client.nextId p) 2400 (Client.startTimerDisplay p)) = "40:00" /\
  (freshIds p ->
   Client.countdowns (ticks (Client.nextId p) 2400 (Client.startTimerDisplay p))
   = Client.countdowns p) /\
  (Client.alarmCount (Client.aura p) = 0 ->
   Client.alarmCount (Client.aura (ticks (Client.nextId p) 2400 (Client.startTimerDisplay p)))
     = 1 /\
   Client.alarmLabel (ticks (Client.nextId p) 2400 (Client.startTimerDisplay p)) = "1/2" /\
   Client.cloneActive (Client.aura (ticks (Client.nextId p) 2400 (Client.startTimerDisplay p)))
     = Client.cloneActive (Client.aura p)) /\
  (Client.alarmCount (Client.aura p) = 1 ->
   Client.alarmCount (Client.aura (ticks (Client.nextId p) 2400 (Client.startTimerDisplay p)))
     = 0 /\
   Client.alarmLabel (ticks (Client.nextId p) 2400 (Client.startTimerDisplay p)) = "0/2" /\
   Client.cloneActive (Client.aura (ticks (Client.nextId p) 2400 (Client.startTimerDisplay p)))
     = true).
Proof.
  rewrite countdown_last_tick.
  pose proof (page_handleTimerComplete_fields
                (Client.putTimerDisplay "00:00"
                   (Client.update (Client.setTimeLeft 0) (Client.startTimerDisplay p))))
    as (H1 & H2 & H3 & H4 & H5 & H6).
  split; [exact H1|]. split; [exact H2|]. split; [exact H3|]. split; [exact H4|].
  split; [intros Hfresh; rewrite H5; apply (filter_out_fresh _ _ Hfresh)|].
  change (Client.alarmCount
            (Client.aura (Client.putTimerDisplay "00:00"
               (Client.update (Client.setTimeLeft 0) (Client.startTimerDisplay p)))))
    with (Client.alarmCount (Client.aura p)) in H6.
  change (Client.cloneActive
            (Client.aura (Client.putTimerDisplay "00:00"
               (Client.update (Client.setTimeLeft 0) (Client.startTimerDisplay p)))))
    with (Client.cloneActive (Client.aura p)) in H6.
  split; intros Hac; rewrite Hac in H6; exact H6.
Qed.

Lemma countdown_completes_the_session_witness :
  Client.alarmCount (Client.aura (ticks 1 2400 (Client.startTimerDisplay blankPage))) = 1.
Proof.
  apply (countdown_completes_the_session blankPage). reflexivity.
Defined.

(** [speak] touches nothing but the list of utterances. *)
Lemma speak_is_putSpoken text p :
  exists utterances, Client.speak text p = Client.putSpoken utterances p.
Proof.
  unfold Client.speak.
  destruct (negb (Client.synthesis (Client.aura p)) || Client.isSpeaking (Client.aura p)).
  - exists (Client.spoken p). destruct p. reflexivity.
  - eexists. reflexivity.
Qed.

(** What the page does with the answer to a command that a trigger row
    of the server matched, timer status apart. *)
Lemma exchange_special now now' roll keys net timeString isoTimestamp command srv p h :
  firstMatch (toLowerCase command) = Some h ->
  h <> TimerStatus ->
  exists r timers,
    dispatch now now' roll (Some h) (toLowerCase command) "default" (activeTimers srv)
      = (Returned (Some r), timers) /\
    Client.exchange now now' roll keys net timeString isoTimestamp command srv p
    = ({| activeTimers := timers; aiApis := aiApis srv |},
       Client.receive
         (Returned (Obj [ ("success", Boolean true);
                          ("response", r);
                          ("api_used", Str "internal_system");
                          ("timestamp", Str isoTimestamp);
                          ("commandType", Str "system_command") ])) p).
Proof.
  intros Hfm Hne. unfold Client.exchange, auraProcess.
  rewrite handleSpecialCommands_dispatch, Hfm.
  destruct h; try contradiction; cbn [dispatch default]; eexists _, _; split; reflexivity.
Qed.

(** X20: a second [startTimerDisplay()] leaks the first interval. The
    reply to every session-start command runs [startTimerDisplay()],
    whether or not a countdown is running. After two starts in a row
    both intervals are live, so a second of real time (one firing of
    each) takes two seconds off the display; and [stopTimer()] clears
    only the later interval: the earlier one stays live and keeps
    lowering [timeLeft] although the timer is marked inactive. *)
Theorem second_start_leaks_the_first_interval p :
  freshIds p ->
  (forall now now' roll keys net timeString isoTimestamp command srv page,
     firstMatch (toLowerCase command) = Some SessionStart ->
     exists before,
       Client.aura before = Client.aura page /\
       Client.countdowns before = Client.countdowns page /\
       (Client.exchange now now' roll keys net timeString isoTimestamp command srv page).2
       = Client.updateSessionDisplay
           (Client.update (Client.setSessionNumber 1) (Client.startTimerDisplay before))) /\
  Client.countdowns (Client.startTimerDisplay (Client.startTimerDisplay p))
    = Client.countdowns p ++ [Client.nextId p; S (Client.nextId p)] /\
  Client.timeLeft
    (Client.aura (Client.countdownTick (S (Client.nextId p))
                    (Client.countdownTick (Client.nextId p)
                       (Client.startTimerDisplay (Client.startTimerDisplay p))))) = 2398 /\
  Client.timerActive
    (Client.aura (Client.stopTimer (Client.startTimerDisplay (Client.startTimerDisplay p))))
    = false /\
  Client.countdowns (Client.stopTimer (Client.startTimerDisplay (Client.startTimerDisplay p)))
    = Client.countdowns p ++ [Client.nextId p] /\
  Client.timeLeft
    (Client.aura (Client.countdownTick (Client.nextId p)
                    (Client.stopTimer (Client.startTimerDisplay (Client.startTimerDisplay p)))))
    = 2399.
Proof.
  intros Hfresh.
  assert (Hcds : Client.countdowns (Client.startTimerDisplay (Client.startTimerDisplay p))
                 = Client.countdowns p ++ [Client.nextId p; S (Client.nextId p)]).
  { cbn. rewrite <- app_assoc. reflexivity. }
  assert (Hstop : Client.countdowns
                    (Client.stopTimer (Client.startTimerDisplay (Client.startTimerDisplay p)))
                  = Client.countdowns p ++ [Client.nextId p]).
  { change (Client.countdowns
              (Client.stopTimer (Client.startTimerDisplay (Client.startTimerDisplay p))))
      with (List.filter (fun i => negb (Nat.eqb i (S (Client.nextId p))))
              ((Client.countdowns p ++ [Client.nextId p]) ++ [S (Client.nextId p)])).
    apply filter_out_fresh. apply Forall_app. split.
    - eapply Forall_impl; [exact Hfresh|]. cbn. intros i Hi. lia.
    - repeat constructor. }
  split.
  { intros now now' roll keys net timeString isoTimestamp command srv page Hfm.
    destruct (exchange_special now now' roll keys net timeString isoTimestamp command srv page
                SessionStart Hfm ltac:(discriminate)) as (r & timers & Hr & ->).
    cbn [dispatch] in Hr. inversion Hr; subst r timers. clear Hr. cbn [snd].
    set (message := "Starting 40-minute focused work session with AI monitoring").
    change (Client.receive _ page) with
      (Client.updateSessionDisplay
         (Client.update (Client.setSessionNumber 1)
            (Client.startTimerDisplay
               (Client.speak (generateVoiceResponse message "timer")
                  (Client.addMessage "aura" message page))))).
    destruct (speak_is_putSpoken (generateVoiceResponse message "timer")
                (Client.addMessage "aura" message page)) as [u Hu].
    exists (Client.speak (generateVoiceResponse message "timer")
              (Client.addMessage "aura" message page)).
    rewrite Hu at 1 2. split; [reflexivity|]. split; reflexivity. }
  split; [exact Hcds|].
  split.
  { rewrite (countdownTick_running (Client.nextId p));
      [|rewrite Hcds; apply in_or_app; right; left; reflexivity | cbn; lia].
    rewrite countdownTick_running;
      [reflexivity | cbn; rewrite <- app_assoc; apply in_or_app; right; right; left; reflexivity
      | cbn; lia]. }
  split; [reflexivity|]. split; [exact Hstop|].
  rewrite countdownTick_running;
    [reflexivity | rewrite Hstop; apply in_or_app; right; left; reflexivity | cbn; lia].
Qed.

Lemma second_start_leaks_the_first_interval_witness :
  Client.countdowns (Client.stopTimer (Client.startTimerDisplay (Client.startTimerDisplay blankPage)))
  = [1%nat].
Proof.
  apply (second_start_leaks_the_first_interval blankPage). constructor.
Defined.

(** X21: the safe-mode answer switches the page to a mode that does not
    exist. The status [safe_mode_active] contains "mode_active", so
    after the reply to any command that the server routes to safe mode
    the page is in mode "safe": the mode label is undefined, the clone
    button is disabled and the chat ends with "Switched to undefined".
    The multi-mode answer, by the same rule, switches to "multi" and
    enables the clone button. *)
Theorem mode_follows_the_status_prefix now now' roll keys net timeString isoTimestamp
    command srv p :
  (firstMatch (toLowerCase command) = Some SafeMode ->
   Client.currentMode
     (Client.aura (Client.exchange now now' roll keys net timeString isoTimestamp
                     command srv p).2) = "safe" /\
   Client.modeLabel (Client.exchange now now' roll keys net timeString isoTimestamp
                       command srv p).2 = None /\
   Client.cloneBtnDisabled (Client.exchange now now' roll keys net timeString isoTimestamp
                              command srv p).2 = true /\
   lastChat (Client.exchange now now' roll keys net timeString isoTimestamp command srv p).2
   = Some ("system", "🔧 Switched to undefined. All corresponding systems are now active.")) /\
  (firstMatch (toLowerCase command) = Some ModeSwitch ->
   Client.currentMode
     (Client.aura (Client.exchange now now' roll keys net timeString isoTimestamp
                     command srv p).2) = "multi" /\
   Client.modeLabel (Client.exchange now now' roll keys net timeString isoTimestamp
                       command srv p).2 = Some "Multi Mode" /\
   Client.cloneBtnDisabled (Client.exchange now now' roll keys net timeString isoTimestamp
                              command srv p).2 = false).
Proof.
  split; intros Hfm.
  - destruct (exchange_special now now' roll keys net timeString isoTimestamp command srv p
                SafeMode Hfm ltac:(discriminate)) as (r & timers & Hr & ->).
    cbn [dispatch] in Hr. inversion Hr; subst r timers. clear Hr.
    cbn [snd].
    change (Client.receive _ p) with
      (Client.setMode "safe"
         (Client.activateSafeModeDisplay
            (Client.speak
               (generateVoiceResponse
                  "Safe Mode activated. Detecting elevated stress levels - let's take care of your wellbeing."
                  "stress")
               (Client.addMessage "aura"
                  "Safe Mode activated. Detecting elevated stress levels - let's take care of your wellbeing."
                  p)))).
    split; [reflexivity|]. split; [reflexivity|]. split; [reflexivity|].
    unfold lastChat, Client.setMode, Client.addSystemMessage, Client.addMessage.
    cbn [Client.chat Client.putChat]. apply last_snoc.
  - destruct (exchange_special now now' roll keys net timeString isoTimestamp command srv p
                ModeSwitch Hfm ltac:(discriminate)) as (r & timers & Hr & ->).
    cbn [dispatch] in Hr. inversion Hr; subst r timers. clear Hr.
    cbn [snd].
    change (Client.receive _ p) with
      (Client.setMode "multi"
         (Client.speak
            (generateVoiceResponse
               "Multi Mode activated! All AURA systems online: Voice AI, Timer, Stress Monitor, Document Scanner, and AI Clone."
               "conversation")
            (Client.addMessage "aura"
               "Multi Mode activated! All AURA systems online: Voice AI, Timer, Stress Monitor, Document Scanner, and AI Clone."
               p))).
    split; [reflexivity|]. split; reflexivity.
Qed.

Lemma mode_follows_the_status_prefix_witness :
  Client.currentMode
    (Client.aura (Client.exchange 0 0 5 sampleKeys nothingAnswers "10:15:00"
                    "2025-01-01T10:15:00.000Z" "activate safe mode"
                    {| activeTimers := ∅; aiApis := AI_APIS |} blankPage).2) = "safe".
Proof.
  apply (mode_follows_the_status_prefix 0 0 5 sampleKeys nothingAnswers "10:15:00"
           "2025-01-01T10:15:00.000Z" "activate safe mode"
           {| activeTimers := ∅; aiApis := AI_APIS |} blankPage).
  reflexivity.
Defined.

(** X22: the clone command does not switch on the clone display. The
    page reacts to the status [ai_clone_activated] only, and the server
    answers a clone command with [clone_activated] or
    [advanced_clone_active]: after the reply to any command routed to
    the clone row the page has the reply in its chat, and [AuraState]
    ([cloneActive] included), the clone status line, the clone
    simulations and the mode label are what they were. *)
Theorem clone_command_leaves_the_clone_display_off now now' roll keys net timeString
    isoTimestamp command srv p :
  firstMatch (toLowerCase command) = Some Clone ->
  Client.aura (Client.exchange now now' roll keys net timeString isoTimestamp command srv p).2
    = Client.aura p /\
  Client.cloneStatusText
    (Client.exchange now now' roll keys net timeString isoTimestamp command srv p).2
    = Client.cloneStatusText p /\
  Client.simulations
    (Client.exchange now now' roll keys net timeString isoTimestamp command srv p).2
    = Client.simulations p /\
  Client.modeLabel
    (Client.exchange now now' roll keys net timeString isoTimestamp command srv p).2
    = Client.modeLabel p /\
  exists text,
    Client.chat (Client.exchange now now' roll keys net timeString isoTimestamp command srv p).2
    = Client.chat p ++ [("aura", text)].
Proof.
  intros Hfm.
  destruct (exchange_special now now' roll keys net timeString isoTimestamp command srv p
              Clone Hfm ltac:(discriminate)) as (r & timers & Hr & ->).
  cbn [dispatch] in Hr. cbn [snd].
  destruct (includes (toLowerCase command) "advanced");
    inversion Hr; subst r timers; clear Hr.
  - change (Client.receive _ p) with
      (Client.speak
         (generateVoiceResponse
            "Advanced AI Clone mode engaged - handling complex cognitive tasks." "conversation")
         (Client.addMessage "aura"
            "Advanced AI Clone mode engaged - handling complex cognitive tasks." p)).
    destruct (speak_is_putSpoken
                (generateVoiceResponse
                   "Advanced AI Clone mode engaged - handling complex cognitive tasks."
                   "conversation")
                (Client.addMessage "aura"
                   "Advanced AI Clone mode engaged - handling complex cognitive tasks." p))
      as [u ->].
    repeat split; try reflexivity. eexists. reflexivity.
  - change (Client.receive _ p) with
      (Client.speak
         (generateVoiceResponse
            "AI Clone activated and working autonomously in background." "conversation")
         (Client.addMessage "aura"
            "AI Clone activated and working autonomously in background." p)).
    destruct (speak_is_putSpoken
                (generateVoiceResponse
                   "AI Clone activated and working autonomously in background." "conversation")
                (Client.addMessage "aura"
                   "AI Clone activated and working autonomously in background." p))
      as [u ->].
    repeat split; try reflexivity. eexists. reflexivity.
Qed.

Lemma clone_command_leaves_the_clone_display_off_witness :
  Client.aura (Client.exchange 0 0 5 sampleKeys nothingAnswers "10:15:00"
                 "2025-01-01T10:15:00.000Z" "activate AI clone"
                 {| activeTimers := ∅; aiApis := AI_APIS |} blankPage).2
  = Client.aura blankPage.
Proof.
  apply (clone_command_leaves_the_clone_display_off 0 0 5 sampleKeys nothingAnswers
           "10:15:00" "2025-01-01T10:15:00.000Z" "activate AI clone"
           {| activeTimers := ∅; aiApis := AI_APIS |} blankPage).
  reflexivity.
Defined.

(** X23: the clone activity list shows the latest three. If at most
    three items are shown, [addCloneActivity] leaves at most three, the
    new item last; what is shown afterwards is the old list with the new
    item appended, less at most one item dropped from the front. *)
Theorem addCloneActivity_keeps_the_latest_three activity p :
  (length (Client.activities p) <= 3)%nat ->
  (length (Client.activities (Client.addCloneActivity activity p)) <= 3)%nat /\
  last (Client.activities (Client.addCloneActivity activity p)) = Some activity /\
  exists dropped,
    Client.activities p ++ [activity]
    = dropped ++ Client.activities (Client.addCloneActivity activity p) /\
    (length dropped <= 1)%nat.
Proof.
  intros Hlen. unfold Client.addCloneActivity. cbn [Client.activities Client.putActivities].
  destruct (Client.activities p) as [|a [|b [|c [|d items]]]]; cbn in Hlen; try lia; cbn.
  - split; [lia|]. split; [reflexivity|]. exists []. split; [reflexivity | cbn; lia].
  - split; [lia|]. split; [reflexivity|]. exists []. split; [reflexivity | cbn; lia].
  - split; [lia|]. split; [reflexivity|]. exists []. split; [reflexivity | cbn; lia].
  - split; [lia|]. split; [reflexivity|]. exists [a]. split; [reflexivity | cbn; lia].
Qed.

Lemma addCloneActivity_keeps_the_latest_three_witness :
  last (Client.activities
          (Client.addCloneActivity "Preparing review questions..." blankPage))
  = Some "Preparing review questions...".
Proof.
  apply (addCloneActivity_keeps_the_latest_three "Preparing review questions..." blankPage).
  cbn. lia.
Defined.

(** X24: where the buttons of the page land on the server. The session
    button (timer not running), the clone button (in multi mode), the
    safe-mode button and the stress and scan quick actions each send a
    command that the server routes to the matching handler. The status
    quick action sends a command that matches no trigger row, so it is
    answered by [getAIResponse] and never by [checkTimerStatus]. With
    the timer running the session button only stops the page's own
    countdown, and outside multi mode the clone button sends nothing. *)
Theorem page_buttons_and_server_handlers p :
  (Client.timerActive (Client.aura p) = false ->
   exists c, (Client.startWorkSession p).1 = Some c /\
             firstMatch (toLowerCase c) = Some SessionStart) /\
  (Client.timerActive (Client.aura p) = true ->
   Client.startWorkSession p = (None, Client.stopTimer p)) /\
  (Client.currentMode (Client.aura p) = "multi" ->
   exists c, (Client.activateClone p).1 = Some c /\
             firstMatch (toLowerCase c) = Some Clone) /\
  (Client.currentMode (Client.aura p) <> "multi" ->
   (Client.activateClone p).1 = None) /\
  (exists c, (Client.activateSafeMode p).1 = Some c /\
             firstMatch (toLowerCase c) = Some SafeMode) /\
  (exists c, (Client.quickAction "stress" p).1 = Some c /\
             firstMatch (toLowerCase c) = Some SafeMode) /\
  (exists c, (Client.quickAction "scan" p).1 = Some c /\
             firstMatch (toLowerCase c) = Some ScanIntent) /\
  (exists c, (Client.quickAction "status" p).1 = Some c /\
             firstMatch (toLowerCase c) = None).
Proof.
  split; [intros H; unfold Client.startWorkSession; rewrite H; eexists; split; reflexivity|].
  split; [intros H; unfold Client.startWorkSession; rewrite H; reflexivity|].
  split; [intros H; unfold Client.activateClone; rewrite H; eexists; split; reflexivity|].
  split.
  { intros H. unfold Client.activateClone.
    destruct (String.eqb (Client.currentMode (Client.aura p)) "multi") eqn:E;
      [apply String.eqb_eq in E; contradiction | reflexivity]. }
  repeat split; eexists; split; reflexivity.
Qed.

Lemma page_buttons_and_server_handlers_witness :
  exists c, (Client.startWorkSession blankPage).1 = Some c /\
            firstMatch (toLowerCase c) = Some SessionStart.
Proof.
  apply (page_buttons_and_server_handlers blankPage). reflexivity.
Defined.

(** X25: the second completed session, reported by a status poll,
    switches the clone display on. When the server's record of the
    default user is active with one alarm and its window has elapsed, the
    reply to a timer-status command makes the record inactive on the
    server, and on the page sets [cloneActive], writes the clone status
    line, starts a clone simulation and schedules the four activities of
    the reply one second apart. *)
Theorem status_poll_activates_the_clone_display now now' roll keys net timeString
    isoTimestamp command srv p timer :
  firstMatch (toLowerCase command) = Some TimerStatus ->
  activeTimers srv !! "default" = Some timer ->
  isActive timer = true ->
  alarmCount timer = 1 ->
  duration timer <= now - startTime timer ->
  (exists timer',
     activeTimers (Client.exchange now now' roll keys net timeString isoTimestamp
                     command srv p).1 !! "default" = Some timer' /\
     isActive timer' = false) /\
  Client.cloneActive
    (Client.aura (Client.exchange now now' roll keys net timeString isoTimestamp
                    command srv p).2) = true /\
  Client.cloneStatusText
    (Client.exchange now now' roll keys net timeString isoTimestamp command srv p).2
    = "Active - Working" /\
  Client.simulations
    (Client.exchange now now' roll keys net timeString isoTimestamp command srv p).2
    = Client.simulations p ++ [(Client.nextId p, 0%nat)] /\
  Client.pending
    (Client.exchange now now' roll keys net timeString isoTimestamp command srv p).2
    = Client.pending p ++ [ (0, "Summarizing your study materials");
                            (1000, "Organizing notes and resources");
                            (2000, "Preparing review questions");
                            (3000, "Scheduling your next study session") ].
Proof.
  intros Hfm Hget Hact Hcount Hwin.
  unfold Client.exchange, auraProcess.
  rewrite handleSpecialCommands_dispatch, Hfm. cbn [dispatch default].
  rewrite (checkTimerStatus_elapsed now now' "default" _ timer Hget Hact Hwin).
  unfold handleTimerComplete. rewrite Hget.
  cbn [alarmCount setAlarmCount setIsActive]. rewrite Hcount.
  change (2 <=? 1 + 1) with true. cbn iota. cbn [fst snd activeTimers].
  split; [eexists; split; [apply lookup_insert_eq | reflexivity]|].
  set (message := "Outstanding! You've completed 80 minutes of focused work. AI Clone is now taking over your background tasks.").
  change (Client.receive _ p) with
    (Client.showCloneActivities
       [ "Summarizing your study materials"; "Organizing notes and resources";
         "Preparing review questions"; "Scheduling your next study session" ]
       (Client.activateCloneDisplay
          (Client.speak (generateVoiceResponse message "timer")
             (Client.addMessage "aura" message p)))).
  destruct (speak_is_putSpoken (generateVoiceResponse message "timer")
              (Client.addMessage "aura" message p)) as [u ->].
  split; [reflexivity|]. split; [reflexivity|]. split; [reflexivity|].
  cbn. rewrite <- !app_assoc. reflexivity.
Qed.

Lemma status_poll_activates_the_clone_display_witness :
  Client.cloneActive
    (Client.aura (Client.exchange 4800000 4800000 5 sampleKeys nothingAnswers "10:15:00"
                    "2025-01-01T10:15:00.000Z" "timer status"
                    {| activeTimers :=
                         {[ "default" := {| startTime := 2400000; duration := 2400000;
                                            alarmCount := 1; isActive := true;
                                            mode := "work"; sessionNumber := 2 |} ]};
                       aiApis := AI_APIS |} blankPage).2) = true.
Proof.
  apply (status_poll_activates_the_clone_display 4800000 4800000 5 sampleKeys nothingAnswers
           "10:15:00" "2025-01-01T10:15:00.000Z" "timer status"
           {| activeTimers :=
                {[ "default" := {| startTime := 2400000; duration := 2400000;
                                   alarmCount := 1; isActive := true;
                                   mode := "work"; sessionNumber := 2 |} ]};
              aiApis := AI_APIS |} blankPage
           {| startTime := 2400000; duration := 2400000; alarmCount := 1; isActive := true;
              mode := "work"; sessionNumber := 2 |}).
  - reflexivity.
  - apply lookup_singleton_eq.
  - reflexivity.
  - reflexivity.
  - cbn. lia.
Defined.

(** *** Requests whose command is not a string *)

Lemma commandText_of_string text : commandText (Some (Str text)) = Returned text.
Proof. reflexivity. Qed.

(** Whatever else the body holds under [command], reading its lower
    case throws. *)
Lemma commandText_throws command :
  (forall text, command <> Some (Str text)) ->
  exists e, commandText command = Thrown e.
Proof.
  intros Hnot. destruct command as [[| text | n | b | items | fields]|]; cbn; eauto.
  destruct (Hnot text). reflexivity.
Qed.

(** X12: [handleSpecialCommands] needs a string. Called with a command
    that is a string it returns, and every object it answers with
    carries a status from a fixed list, a text message and a spoken
    version of it which, the scan prompt apart, contains the message.
    Called with anything else under [command] (nothing, [null], a
    number, a list, an object) it throws, and the timer map is
    untouched. *)
Theorem special_commands_need_a_string now now' roll command userId
    (activeTimers : gmap string TimerData) :
  (forall text, command = Some (Str text) ->
     exists result timers,
       handleSpecialCommandsOn now now' roll command userId activeTimers
         = (Returned result, timers) /\
       forall r, result = Some r ->
         exists status message voice,
           get "status" r = Some (Str status) /\ In status specialStatuses /\
           get "message" r = Some (Str message) /\
           get "voiceMessage" r = Some (Str voice) /\
           (status <> "scan_mode_ready" -> includes voice message = true)) /\
  ((forall text, command <> Some (Str text)) ->
   exists e,
     handleSpecialCommandsOn now now' roll command userId activeTimers
       = (Thrown e, activeTimers)).
Proof.
  split.
  - intros text ->. unfold handleSpecialCommandsOn. rewrite commandText_of_string.
    apply special_replies_carry_status_message_voice.
  - intros Hnot. unfold handleSpecialCommandsOn.
    destruct (commandText_throws command Hnot) as [e ->]. eauto.
Qed.

Lemma special_commands_need_a_string_witness :
  (exists result timers,
     handleSpecialCommandsOn 0 0 5 (Some (Str "start work session")) "default" ∅
       = (Returned result, timers)) /\
  (exists e,
     handleSpecialCommandsOn 0 0 5 (Some (Num 42)) "default" ∅ = (Thrown e, ∅)).
Proof.
  split.
  - destruct (special_commands_need_a_string 0 0 5 (Some (Str "start work session"))
                "default" ∅) as [Hstring _].
    destruct (Hstring "start work session" eq_refl) as (result & timers & Hrun & _).
    exists result, timers. exact Hrun.
  - destruct (special_commands_need_a_string 0 0 5 (Some (Num 42)) "default" ∅)
      as [_ Hother].
    apply Hother. intros text. discriminate.
Defined.



(** X14: the voice route bypasses the special commands, and needs a
    string as well. From a reachable provider configuration, a request
    to [/api/voice/process] with a string command is answered and never
    touches the timer map: a command that mentions "scan", "document" or
    "read" gets the scan request and sends nothing to a provider; any
    other command, a timer or safe-mode command included, gets the text
    of [getAIResponse] and its spoken wrapping. A request whose command
    is missing or not a string makes the handler throw before anything
    is sent, and the server state is as it was. *)
Theorem voiceRoute_bypasses_special_commands keys net timeString isoTimestamp
    command srv :
  reachable (aiApis srv) ->
  (forall spoken, command = Some (Str spoken) ->
     exists reply srv' response,
       voiceRoute keys net timeString isoTimestamp command srv = (Returned reply, srv') /\
       get "success" reply = Some (Boolean true) /\
       get "response" reply = Some response /\
       activeTimers srv' = activeTimers srv /\
       (asksForScan spoken = true -> response = scanRequest /\ srv' = srv) /\
       (asksForScan spoken = false ->
        exists text,
          value (getAIResponse keys net timeString spoken (aiApis srv)) = Returned text /\
          aiApis srv' = apis (getAIResponse keys net timeString spoken (aiApis srv)) /\
          get "type" response = Some (Str "conversation") /\
          get "message" response = Some (Str text) /\
          get "voiceMessage" response
          = Some (Str ("I understand what you're asking. " +:+ text
                       +:+ " Is there anything else you'd like to know?")))) /\
  ((forall spoken, command <> Some (Str spoken)) ->
   exists e, voiceRoute keys net timeString isoTimestamp command srv = (Thrown e, srv)).
Proof.
  intros Hst. split.
  - intros spoken ->. unfold voiceRoute. rewrite commandText_of_string.
    apply voiceProcess_bypasses_special_commands. exact Hst.
  - intros Hnot. unfold voiceRoute.
    destruct (commandText_throws command Hnot) as [e ->]. eauto.
Qed.

Lemma voiceRoute_bypasses_special_commands_witness :
  (exists reply srv',
     voiceRoute sampleKeys nothingAnswers "10:15:00" "2025-01-01T10:15:00.000Z"
                (Some (Str "start work session")) {| activeTimers := ∅; aiApis := AI_APIS |}
       = (Returned reply, srv') /\
     activeTimers srv' = ∅) /\
  (exists e,
     voiceRoute sampleKeys nothingAnswers "10:15:00" "2025-01-01T10:15:00.000Z"
                (Some Null) {| activeTimers := ∅; aiApis := AI_APIS |}
       = (Thrown e, {| activeTimers := ∅; aiApis := AI_APIS |})).
Proof.
  split.
  - destruct (voiceRoute_bypasses_special_commands sampleKeys nothingAnswers "10:15:00"
                "2025-01-01T10:15:00.000Z" (Some (Str "start work session"))
                {| activeTimers := ∅; aiApis := AI_APIS |} reachable_init) as [Hstring _].
    destruct (Hstring "start work session" eq_refl)
      as (reply & srv' & response & Hrun & _ & _ & Hframe & _).
    exists reply, srv'. split; [exact Hrun | exact Hframe].
  - destruct (voiceRoute_bypasses_special_commands sampleKeys nothingAnswers "10:15:00"
                "2025-01-01T10:15:00.000Z" (Some Null)
                {| activeTimers := ∅; aiApis := AI_APIS |} reachable_init) as [_ Hother].
    apply Hother. intros spoken. discriminate.
Defined.

(** *** The credential rule and the environment *)

Lemma API_KEYS_entries env :
  API_KEYS env !! "GROQ_API_KEY" = Some (envOr env "GROQ_API_KEY" EmptyString) /\
  API_KEYS env !! "OPENAI_API_KEY" = Some (envOr env "OPENAI_API_KEY" EmptyString) /\
  API_KEYS env !! "GEMINI_API_KEY" = Some (envOr env "GEMINI_API_KEY" EmptyString) /\
  API_KEYS env !! "GROQ_TOKEN" = None /\
  API_KEYS env !! "OPENAI_TOKEN" = None /\
  API_KEYS env !! "GEMINI_TOKEN" = None.
Proof.
  unfold API_KEYS.
  repeat split;
    repeat (rewrite lookup_insert_ne by discriminate);
    first [apply lookup_insert_eq | apply lookup_empty].
Qed.

Lemma envOr_empty_truthy env variable :
  truthy (Some (envOr env variable EmptyString)) = true -> truthy (env !! variable) = true.
Proof. unfold envOr. destruct (env !! variable) as [[|c rest]|]; cbn; auto. Qed.

(** For groq, openai and gemini the guard does what the rule says: a
    provider that passes the guard has its variable set in the
    environment. *)
Lemma guard_means_configured env name :
  In name ["groq"; "openai"; "gemini"] ->
  hasCredential (API_KEYS env) name = true ->
  configured env name = true.
Proof.
  destruct (API_KEYS_entries env) as (Hg & Ho & Hm & Hgt & Hot & Hmt).
  unfold hasCredential, configured.
  intros [<-|[<-|[<-|[]]]].
  - change (toUpperCase "groq" +:+ "_API_KEY") with "GROQ_API_KEY".
    change (toUpperCase "groq" +:+ "_TOKEN") with "GROQ_TOKEN".
    rewrite Hg, Hgt. cbn [credentialVariable String.eqb]. unfold orElse.
    destruct (truthy (Some (envOr env "GROQ_API_KEY" EmptyString))) eqn:E;
      [intros _; apply envOr_empty_truthy, E | discriminate].
  - change (toUpperCase "openai" +:+ "_API_KEY") with "OPENAI_API_KEY".
    change (toUpperCase "openai" +:+ "_TOKEN") with "OPENAI_TOKEN".
    rewrite Ho, Hot. unfold orElse.
    destruct (truthy (Some (envOr env "OPENAI_API_KEY" EmptyString))) eqn:E;
      [intros _; apply envOr_empty_truthy, E | discriminate].
  - change (toUpperCase "gemini" +:+ "_API_KEY") with "GEMINI_API_KEY".
    change (toUpperCase "gemini" +:+ "_TOKEN") with "GEMINI_TOKEN".
    rewrite Hm, Hmt. unfold orElse.
    destruct (truthy (Some (envOr env "GEMINI_API_KEY" EmptyString))) eqn:E;
      [intros _; apply envOr_empty_truthy, E | discriminate].
Qed.

(** The defect is confined to huggingface: in every environment, a call
    that goes to another provider goes to one with a credential
    present. *)
Lemma only_huggingface_is_called_unconfigured env net timeString message st :
  reachable st ->
  Forall (fun c => api c = "huggingface" \/ configured env (api c) = true)
         (calls (getAIResponse (API_KEYS env) net timeString message st)).
Proof.
  intros Hst.
  assert (Hone : forall name, In name providers -> hasCredential (API_KEYS env) name = true ->
                   name = "huggingface" \/ configured env name = true).
  { intros name Hin Hcred. unfold providers in Hin. cbn in Hin.
    destruct Hin as [<-|[<-|[<-|[<-|[]]]]]; auto;
      right; apply guard_means_configured; cbn; auto. }
  pose proof (reachable_invariant st Hst) as (_ & _ & Hcur).
  destruct (getAIResponse_cases (API_KEYS env) net timeString message st
              (reachable_current_known st Hst))
    as [([Hc _] & _ & text & _ & _ & ->) | (_ & k & pre & Hpre & -> & _ & _)].
  - constructor; [apply Hone; assumption | constructor].
  - apply Forall_app. split.
    + destruct Hpre as [->|(failed & -> & _ & Hapi & _ & Hc)]; [constructor|].
      constructor; [rewrite Hapi; apply Hone; assumption | constructor].
    + apply List.Forall_forall. intros c Hin.
      apply loop_calls_on_list in Hin. destruct Hin as [Hin Hc].
      apply Hone; [apply (backup_in_providers st _ Hst Hin) | exact Hc].
Qed.

(** C8: the credential rule fails for huggingface. Started in an empty
    environment, no credential is present for any provider, and the
    status route lists none as available; yet [getAIResponse], run on a
    network where every request fails, sends a request to huggingface,
    with the placeholder text that [API_KEYS] puts in the place of the
    missing token. The rule says that a provider with no credential
    present is never attempted. *)
Theorem huggingface_is_called_without_a_credential :
  (forall name, In name providers -> configured ∅ name = false) /\
  availableAPIs (API_KEYS ∅) = [] /\
  API_KEYS ∅ !! "HUGGINGFACE_TOKEN" = Some "YOUR_HF_KEY_HERE" /\
  calls (getAIResponse (API_KEYS ∅) nothingAnswers "10:15:00" "hello" AI_APIS)
    = [ {| role := Fallback; api := "huggingface"; response := None |} ] /\
  ~ callsOnlyConfigured ∅ nothingAnswers "10:15:00" "hello" AI_APIS.
Proof.
  split.
  { intros name Hin. unfold providers in Hin. cbn in Hin.
    destruct Hin as [<-|[<-|[<-|[<-|[]]]]]; reflexivity. }
  split; [vm_compute; reflexivity|].
  split; [vm_compute; reflexivity|].
  assert (Hcalls : calls (getAIResponse (API_KEYS ∅) nothingAnswers "10:15:00" "hello" AI_APIS)
                   = [ {| role := Fallback; api := "huggingface"; response := None |} ])
    by (vm_compute; reflexivity).
  split; [exact Hcalls|].
  unfold callsOnlyConfigured. rewrite Hcalls. intros Hall.
  inversion Hall as [|c l Hc _]; subst. cbn in Hc. discriminate.
Qed.
